(** * tsbackend: payment-to-enrollment bridge

    A shallow embedding of [src/src/index.ts] (the Express router with the
    Stripe checkout, webhook, verification and free-enrollment endpoints and
    the helper [createEnrollmentWithPayment]) together with the properties the
    design document states about it.

    The two external collaborators are modelled explicitly:
    - the Supabase data store is an in-memory record of three tables; every
      call to it is recorded in a trace and may fail according to a fault
      plan, so that "lookup failure" and "write failure" are real inputs;
    - the Stripe client is an interface (a type class) whose two methods,
      [webhooks_constructEvent] and [checkout_sessions_create], are
      arbitrary functions. *)

From Stdlib Require Import ZArith Lia SpecFloat.
From stdpp Require Import base strings list gmap.

Local Open Scope string_scope.
Local Open Scope list_scope.

(** ** JavaScript numbers

    A JavaScript [number] is an IEEE 754 binary64 value.  [spec_float] is the
    standard library's executable specification of such values, instantiated
    at precision 53 and maximal exponent 1024. *)

Module JsNumber.

Definition number : Type := spec_float.

Definition prec : Z := 53.
Definition emax : Z := 1024.

(** The double nearest to an integer (exact below 2^53). *)
Definition of_Z (z : Z) : number := binary_normalize prec emax z 0 false.

Definition zero : number := S754_zero false.

Definition mul (x y : number) : number := SFmul prec emax x y.
Definition div (x y : number) : number := SFdiv prec emax x y.

(** [x > y] and [x <= y]; both are [false] when either side is NaN. *)
(** [x == y] on numbers: [0 == -0] holds and [NaN == NaN] does not. *)
Definition eqb (x y : number) : bool := SFeqb x y.

Definition gt (x y : number) : bool := SFltb y x.
Definition le (x y : number) : bool := SFleb x y.

(** ToBoolean on a number: [0], [-0] and [NaN] are falsy. *)
Definition truthy (x : number) : bool :=
  match x with
  | S754_zero _ | S754_nan => false
  | _ => true
  end.

(** A decimal literal [m / 10^k] as JSON.parse reads it: the double nearest
    to the rational, obtained here by one correctly rounded division of two
    exactly representable integers (so for [|m| < 2^53] and [k <= 15]). *)
Definition of_decimal (m : Z) (k : nat) : number :=
  div (of_Z m) (of_Z (10 ^ Z.of_nat k)).

(** [Math.round]: the integer nearest to [x], ties going toward +infinity;
    a result of magnitude zero keeps the sign of [x]; NaN, the infinities
    and the zeros are returned as they are.  A finite double
    [(-1)^s * m * 2^e] with [e >= 0] is already an integer. *)
Definition Math_round (x : number) : number :=
  match x with
  | S754_finite s m e =>
      if (0 <=? e)%Z then x
      else
        let d := (2 ^ (- e))%Z in
        let n := ((2 * cond_Zopp s (Z.pos m) + d) / (2 * d))%Z in
        if (n =? 0)%Z then S754_zero s else of_Z n
  | _ => x
  end.

(** Rounding to the nearest integer with ties going to the even neighbour,
    the rule the design document names for the minor-unit conversion.  It is
    defined from the document's words and is used only to compare it with
    [Math_round]. *)
Definition round_half_even (x : number) : number :=
  match x with
  | S754_finite s m e =>
      if (0 <=? e)%Z then x
      else
        let d := (2 ^ (- e))%Z in
        let v := cond_Zopp s (Z.pos m) in
        let q := (v / d)%Z in
        let r := (v mod d)%Z in
        let n :=
          match (2 * r ?= d)%Z with
          | Lt => q
          | Gt => (q + 1)%Z
          | Eq => if Z.even q then q else (q + 1)%Z
          end in
        if (n =? 0)%Z then S754_zero s else of_Z n
  | _ => x
  end.

End JsNumber.

Import JsNumber.

(** ** Data model: the three tables of the data store *)

Definition id : Type := N.

Record enrollment : Type := mkEnrollment {
  enr_id : id;
  student_id : string;
  course_id : string;
  enr_status : string
}.

Record payment : Type := mkPayment {
  pay_id : id;
  enrollment_id : id;
  amount : number;
  payment_method : string;
  transaction_id : string;
  pay_status : string
}.

Record course : Type := mkCourse {
  crs_id : string;
  price : number
}.

Record db : Type := mkDb {
  enrollments : list enrollment;
  payments : list payment;
  courses : list course
}.

(** ** The data-store client

    The Supabase client never throws: a call resolves to either an error or
    the requested data.  [PGRST116] is the error of [.maybeSingle()] on more
    than one row and of [.single()] on anything but one row; [StoreFault]
    stands for any failure of the store itself (network, permission,
    constraint). *)

Inductive store_error : Type := PGRST116 | StoreFault.

(** What a [throw] carries: an error object of the store client, or an error
    raised by the Stripe client (of which the code reads the message). *)
Inductive js_error : Type :=
  | PostgrestError (e : store_error)
  | StripeError (message : string).

Inductive pg_result (A : Type) : Type :=
  | PgError (e : store_error)
  | PgData (d : A).
Arguments PgError {A} e.
Arguments PgData {A} d.

(** Every call made to the store, in the order it is made. *)
Inductive store_call : Type :=
  | SelectEnrollment (student course : string)
  | SelectPayment (enrollment : id) (transaction : string)
  | SelectCourse (course : string)
  | InsertEnrollment (student course status : string)
  | InsertPayment (enrollment : id) (amt : number)
      (method transaction status : string).

Definition is_payment_write (c : store_call) : bool :=
  match c with InsertPayment _ _ _ _ _ => true | _ => false end.

(** What [console.log] and [console.error] receive. *)
Inductive log_arg : Type :=
  | ArgError (e : js_error)
  | ArgString (s : string).

Inductive log_entry : Type :=
  | LogInfo (msg : string)
  | LogError (msg : string) (args : list log_arg).

(** The state a request handler runs against: the store, the outcomes the
    store will give to the coming calls ([true]: the call fails; an exhausted
    plan means success), the calls made so far, and the console. *)
Record world : Type := mkWorld {
  store : db;
  faults : list bool;
  calls : list store_call;
  console : list log_entry
}.

(** ** Exceptions and state: the monad of an [async] function body *)

Inductive outcome (A : Type) : Type :=
  | Return (a : A)
  | Throw (e : js_error).
Arguments Return {A} a.
Arguments Throw {A} e.

Definition M (A : Type) : Type := world -> outcome A * world.

#[global] Instance M_ret : MRet M := fun A a w => (Return a, w).

#[global] Instance M_bind : MBind M := fun A B f m w =>
  match m w with
  | (Return a, w') => f a w'
  | (Throw e, w') => (Throw e, w')
  end.

Definition throw {A : Type} (e : js_error) : M A := fun w => (Throw e, w).

(** The world after one more console entry. *)
Definition logged (e : log_entry) (w : world) : world :=
  mkWorld (store w) (faults w) (calls w) (console w ++ [e]).

Definition console_log (msg : string) : M unit := fun w =>
  (Return tt, logged (LogInfo msg) w).

Definition console_error (msg : string) (args : list log_arg) : M unit :=
  fun w => (Return tt, logged (LogError msg args) w).

(** [try { body } catch (error) { handler error }] *)
Definition try_catch {A : Type} (body : M A) (handler : js_error -> M A)
  : M A := fun w =>
  match body w with
  | (Return a, w') => (Return a, w')
  | (Throw e, w') => handler e w'
  end.

(** Whether the next call to the store fails, and the world after a call was
    issued: the call is appended to the trace and consumes one entry of the
    fault plan. *)
Definition fails (w : world) : bool := default false (head (faults w)).

Definition issued (c : store_call) (w : world) : world :=
  mkWorld (store w) (tail (faults w)) (calls w ++ [c]) (console w).

Definition issue (c : store_call) : M bool := fun w =>
  (Return (fails w), issued c w).

Definition read_store : M db := fun w => (Return (store w), w).

Definition write_store (d : db) : M unit := fun w =>
  (Return tt, mkWorld d (faults w) (calls w) (console w)).

Definition maybeSingle {A : Type} (rows : list A) : pg_result (option A) :=
  match rows with
  | [] => PgData None
  | [r] => PgData (Some r)
  | _ => PgError PGRST116
  end.

Definition single {A : Type} (rows : list A) : pg_result A :=
  match rows with
  | [r] => PgData r
  | _ => PgError PGRST116
  end.

(** The identifiers the store gives to inserted rows.  The primary key of a
    table admits no duplicate, so the identifier of a row that was inserted
    is not the identifier of an older row. *)
Class StoreIds : Type := {
  new_enrollment_id : list enrollment -> id;
  new_payment_id : list payment -> id;
  new_enrollment_id_fresh :
    forall l : list enrollment, new_enrollment_id l ∉ (enr_id <$> l)
}.

Section Store.
Context `{StoreIds}.

Definition enrollments_of (u c : string) (l : list enrollment)
  : list enrollment :=
  filter (fun e => student_id e = u /\ course_id e = c) l.

Definition payments_of (eid : id) (ref : string) (l : list payment)
  : list payment :=
  filter (fun p => enrollment_id p = eid /\ transaction_id p = ref) l.

(** [supabase.from('enrollments').select('id').eq('student_id', u)
    .eq('course_id', c).maybeSingle()] *)
Definition select_enrollment (u c : string) : M (pg_result (option id)) :=
  failed ← issue (SelectEnrollment u c);
  if failed : bool then mret (PgError StoreFault)
  else
    d ← read_store;
    mret (maybeSingle (enr_id <$> enrollments_of u c (enrollments d))).

(** [supabase.from('payments').select('id').eq('enrollment_id', eid)
    .eq('transaction_id', ref).maybeSingle()] *)
Definition select_payment (eid : id) (ref : string)
  : M (pg_result (option id)) :=
  failed ← issue (SelectPayment eid ref);
  if failed : bool then mret (PgError StoreFault)
  else
    d ← read_store;
    mret (maybeSingle (pay_id <$> payments_of eid ref (payments d))).

(** [supabase.from('courses').select('price').eq('id', c).single()] *)
Definition select_course_price (c : string) : M (pg_result number) :=
  failed ← issue (SelectCourse c);
  if failed : bool then mret (PgError StoreFault)
  else
    d ← read_store;
    mret (single (price <$> filter (fun k => crs_id k = c) (courses d))).

(** [supabase.from('enrollments').insert([{student_id, course_id,
    status}]).select().single()]: a failed insert writes nothing. *)
Definition insert_enrollment (u c status : string)
  : M (pg_result enrollment) :=
  failed ← issue (InsertEnrollment u c status);
  if failed : bool then mret (PgError StoreFault)
  else
    d ← read_store;
    let row := mkEnrollment (new_enrollment_id (enrollments d)) u c status in
    write_store (mkDb (enrollments d ++ [row]) (payments d) (courses d));;
    mret (PgData row).

(** [supabase.from('payments').insert([{enrollment_id, amount,
    payment_method, transaction_id, status}])] *)
Definition insert_payment (eid : id) (amt : number)
    (method ref status : string) : M (pg_result unit) :=
  failed ← issue (InsertPayment eid amt method ref status);
  if failed : bool then mret (PgError StoreFault)
  else
    d ← read_store;
    let row :=
      mkPayment (new_payment_id (payments d)) eid amt method ref status in
    write_store (mkDb (enrollments d) (payments d ++ [row]) (courses d));;
    mret (PgData tt).

End Store.

(** ** The Enrollment Reconciler: [createEnrollmentWithPayment] *)

(** The value the helper resolves to: the [{id}] projection that the lookup
    selected, or the whole row that the insert returned. *)
Inductive enrollment_data : Type :=
  | ExistingEnrollment (eid : id)
  | NewEnrollment (row : enrollment).

Definition enrollment_data_id (d : enrollment_data) : id :=
  match d with
  | ExistingEnrollment eid => eid
  | NewEnrollment row => enr_id row
  end.

Section Reconciler.
Context `{StoreIds}.

Definition createEnrollmentWithPayment
    (userId courseId : string) (amount : number) (sessionId : string)
  : M enrollment_data :=
  console_log
    ("Creating enrollment for user " +:+ userId +:+ " in course " +:+ courseId);;
  (* Check if user is already enrolled *)
  r ← select_enrollment userId courseId;
  match r with
  | PgError checkError =>
      console_error "Error checking existing enrollment:"
        [ArgError (PostgrestError checkError)];;
      throw (PostgrestError checkError)
  | PgData (Some existingEnrollment) =>
      (* If already enrolled, only create payment record if it doesn't exist *)
      console_log
        ("User " +:+ userId +:+ " already enrolled in course " +:+ courseId);;
      r ← select_payment existingEnrollment sessionId;
      match r with
      | PgError paymentCheckError =>
          console_error "Error checking existing payment:"
            [ArgError (PostgrestError paymentCheckError)];;
          throw (PostgrestError paymentCheckError)
      | PgData existingPayment =>
          (if negb (bool_decide (is_Some existingPayment)) && gt amount zero
           then
             r ← insert_payment existingEnrollment amount "stripe" sessionId
                   "completed";
             match r with
             | PgError paymentError =>
                 console_error "Error creating payment record:"
                   [ArgError (PostgrestError paymentError)];;
                 throw (PostgrestError paymentError)
             | PgData _ => mret tt
             end
           else mret tt);;
          mret (ExistingEnrollment existingEnrollment)
      end
  | PgData None =>
      (* Create new enrollment *)
      r ← insert_enrollment userId courseId "active";
      match r with
      | PgError enrollmentError =>
          console_error "Error creating enrollment:"
            [ArgError (PostgrestError enrollmentError)];;
          throw (PostgrestError enrollmentError)
      | PgData enrollmentData =>
          (* Create payment record if it's a paid course *)
          (if gt amount zero then
             r ← insert_payment (enr_id enrollmentData) amount "stripe"
                   sessionId "completed";
             match r with
             | PgError paymentError =>
                 (* Don't throw here as enrollment is already created *)
                 console_error "Error creating payment record:"
                   [ArgError (PostgrestError paymentError)]
             | PgData _ => mret tt
             end
           else mret tt);;
          mret (NewEnrollment enrollmentData)
      end
  end.

End Reconciler.

(** ** HTTP: JSON bodies and responses *)

#[local] Set Warnings "-register-all".

Inductive json : Type :=
  | JNull
  | JBool (b : bool)
  | JNumber (n : number)
  | JString (s : string)
  | JObject (fields : list (string * json)).

Inductive res_body : Type :=
  | Text (s : string)
  | Json (j : json).

Record response : Type := mkResponse {
  status : nat;
  body : res_body
}.

Definition json_of_id (i : id) : json := JNumber (of_Z (Z.of_N i)).

Definition json_of_nullable (s : option string) : json :=
  match s with
  | Some s => JString s
  | None => JNull
  end.

Definition json_of_enrollment_data (d : enrollment_data) : json :=
  match d with
  | ExistingEnrollment eid => JObject [("id", json_of_id eid)]
  | NewEnrollment row =>
      JObject [("id", json_of_id (enr_id row));
               ("student_id", JString (student_id row));
               ("course_id", JString (course_id row));
               ("status", JString (enr_status row))]
  end.

(** A request field that should hold a string: absent, or a string.  [!x] is
    true of an absent field and of the empty string. *)
Definition truthy_string (x : option string) : option string :=
  match x with
  | Some s => if decide (s = "") then None else Some s
  | None => None
  end.

(** [x || d] on such a field. *)
Definition or_default (x : option string) (d : string) : string :=
  default d (truthy_string x).

(** ** The payment processor *)

Record checkout_session : Type := mkSession {
  session_id : string;
  session_url : option string;
  payment_status : string;
  session_metadata : option (gmap string string);
  amount_total : option number;
  payment_intent : option string
}.

Record stripe_event : Type := mkEvent {
  event_type : string;
  event_object : checkout_session
}.

Record line_item : Type := mkLineItem {
  currency : string;
  product_name : string;
  product_description : string;
  unit_amount : number;
  quantity : N
}.

Record session_params : Type := mkParams {
  payment_method_types : list string;
  line_items : list line_item;
  mode : string;
  success_url : string;
  cancel_url : string;
  metadata : gmap string string
}.

(** The Stripe client.  A method either throws an error with a message
    ([inl]) or gives its result ([inr]). *)
Class Stripe : Type := {
  checkout_sessions_create : session_params -> string + checkout_session;
  checkout_sessions_retrieve : string -> string + checkout_session;
  webhooks_constructEvent :
    forall (payload sig endpointSecret : string), string + stripe_event
}.

(** [process.env] *)
Class Env : Type := {
  env_FRONTEND_URL : option string;
  env_STRIPE_WEBHOOK_SECRET : option string
}.

Section Router.
Context `{StoreIds} `{Stripe} `{Env}.

Definition FRONTEND_URL : string :=
  or_default env_FRONTEND_URL "http://localhost:5173".

(** *** POST /api/create-checkout-session *)

Record checkout_body : Type := mkCheckoutBody {
  cb_courseId : option string;
  cb_courseTitle : option string;
  cb_coursePrice : option number;
  cb_userId : option string;
  cb_successUrl : option string;
  cb_cancelUrl : option string
}.

(** The object handed to [stripe.checkout.sessions.create]. *)
Definition checkout_params (courseId courseTitle : string)
    (coursePrice : number) (userId : string)
    (successUrl cancelUrl : option string) : session_params :=
  let metadata : gmap string string :=
    <["courseId" := courseId]> (<["userId" := userId]> ∅) in
  mkParams
    ["card"]
    [mkLineItem "usd" courseTitle
       ("Enrollment for course: " +:+ courseTitle)
       (Math_round (mul coursePrice (of_Z 100))) (* convert to cents *)
       1]
    "payment"
    (or_default successUrl
       (FRONTEND_URL +:+ "/payment/success?session_id={CHECKOUT_SESSION_ID}"))
    (or_default cancelUrl (FRONTEND_URL +:+ "/courses/" +:+ courseId))
    metadata.

Definition checkout_created (session : checkout_session) : response :=
  mkResponse 200
    (Json (JObject [("id", JString (session_id session));
                    ("url", json_of_nullable (session_url session))])).

Definition checkout_failed : response :=
  mkResponse 500
    (Json (JObject [("error", JString "Failed to create checkout session")])).

Definition create_checkout_session (req : checkout_body) : M response :=
  console_log "SERVER HAS PING";;
  match truthy_string (cb_courseId req), truthy_string (cb_courseTitle req),
        cb_coursePrice req, truthy_string (cb_userId req) with
  | Some courseId, Some courseTitle, Some coursePrice, Some userId =>
      match checkout_sessions_create
              (checkout_params courseId courseTitle coursePrice userId
                 (cb_successUrl req) (cb_cancelUrl req)) with
      | inr session => mret (checkout_created session)
      | inl message =>
          console_log "EROIOr";;
          console_error "Error creating checkout session:"
            [ArgError (StripeError message)];;
          mret checkout_failed
      end
  | _, _, _, _ =>
      mret (mkResponse 400
              (Json (JObject [("error", JString "Missing required parameters")])))
  end.

(** *** POST /api/stripe-webhook *)

Record webhook_request : Type := mkWebhookRequest {
  wr_payload : string;
  wr_stripe_signature : option string
}.

(** [(session.amount_total || 0) / 100] *)
Definition webhook_amount (session : checkout_session) : number :=
  div (match amount_total session with
       | Some n => if truthy n then n else zero
       | None => zero
       end) (of_Z 100).

(** [session.metadata && 'courseId' in session.metadata && 'userId' in
    session.metadata], and the two values read when it holds. *)
Definition webhook_metadata (session : checkout_session)
  : option (string * string) :=
  match session_metadata session with
  | Some md =>
      match md !! "courseId", md !! "userId" with
      | Some courseId, Some userId => Some (courseId, userId)
      | _, _ => None
      end
  | None => None
  end.

Definition received : response :=
  mkResponse 200 (Json (JObject [("received", JBool true)])).

Definition stripe_webhook (req : webhook_request) : M response :=
  match truthy_string (wr_stripe_signature req) with
  | None => mret (mkResponse 400 (Text "Missing stripe-signature header"))
  | Some sig =>
      (* Verify webhook signature and extract the event *)
      let endpointSecret := or_default env_STRIPE_WEBHOOK_SECRET "" in
      match webhooks_constructEvent (wr_payload req) sig endpointSecret with
      | inl message =>
          console_error ("Webhook Error: " +:+ message) [];;
          mret (mkResponse 400 (Text ("Webhook Error: " +:+ message)))
      | inr event =>
          (* Handle the checkout.session.completed event *)
          (if decide (event_type event = "checkout.session.completed") then
             let session := event_object event in
             (* Ensure payment is successful *)
             if decide (payment_status session = "paid") then
               match webhook_metadata session with
               | Some (courseId, userId) =>
                   try_catch
                     (createEnrollmentWithPayment userId courseId
                        (webhook_amount session) (session_id session);;
                      console_log
                        ("Webhook: Successfully enrolled user " +:+ userId
                         +:+ " in course " +:+ courseId))
                     (fun error =>
                        console_error "Error processing enrollment:"
                          [ArgError error])
               | None =>
                   console_error "Missing metadata in session"
                     [ArgString (session_id session)]
               end
             else mret tt
           else mret tt);;
          mret received
      end
  end.

(** *** GET /api/verify-payment/:sessionId *)

Definition verify_amount (session : checkout_session) : number :=
  match amount_total session with
  | Some n => if truthy n then div n (of_Z 100) else zero
  | None => zero
  end.

Definition verify_payment (sessionId : string) : M response :=
  try_catch
    (match checkout_sessions_retrieve sessionId with
     | inl message => throw (StripeError message)
     | inr session =>
         if decide (payment_status session = "paid") then
           let courseId :=
             or_default (session_metadata session ≫= (.!! "courseId")) "" in
           let userId :=
             or_default (session_metadata session ≫= (.!! "userId")) "" in
           let amount := verify_amount session in
           try_catch
             (enrollmentData ←
                createEnrollmentWithPayment userId courseId amount sessionId;
              mret (mkResponse 200
                      (Json (JObject
                         [("success", JBool true);
                          ("courseId", JString courseId);
                          ("userId", JString userId);
                          ("amount", JNumber amount);
                          ("paymentId", json_of_nullable (payment_intent session));
                          ("transactionId", JString sessionId);
                          ("enrollmentId",
                           json_of_id (enrollment_data_id enrollmentData));
                          ("enrollment",
                           json_of_enrollment_data enrollmentData)]))))
             (fun error =>
                console_error "Error creating enrollment:" [ArgError error];;
                mret (mkResponse 500
                        (Json (JObject
                           [("success", JBool false);
                            ("error", JString "Failed to create enrollment record");
                            ("message", JString "Your payment was successful, but we could not complete your enrollment. Please contact support.")]))))
         else
           mret (mkResponse 200
                   (Json (JObject
                      [("success", JBool false);
                       ("message", JString "Payment not completed");
                       ("paymentStatus", JString (payment_status session))])))
     end)
    (fun error =>
       console_error "Error verifying payment:" [ArgError error];;
       mret (mkResponse 500
               (Json (JObject [("error", JString "Failed to verify payment")])))).

(** *** POST /api/create-free-enrollment *)

Record free_enrollment_body : Type := mkFreeBody {
  fb_userId : option string;
  fb_courseId : option string
}.

Definition not_a_free_course : response :=
  mkResponse 400
    (Json (JObject
       [("success", JBool false);
        ("error", JString "This is not a free course");
        ("message", JString "Paid courses require checkout through Stripe")])).

Definition free_enrollment_created (d : enrollment_data) : response :=
  mkResponse 200
    (Json (JObject [("success", JBool true);
                    ("enrollment", json_of_enrollment_data d)])).

Definition create_free_enrollment (req : free_enrollment_body) : M response :=
  try_catch
    (match truthy_string (fb_userId req), truthy_string (fb_courseId req) with
     | Some userId, Some courseId =>
         (* Verify this is a free course *)
         r ← select_course_price courseId;
         match r with
         | PgError courseError =>
             console_error "Error fetching course:"
               [ArgError (PostgrestError courseError)];;
             mret (mkResponse 500
                     (Json (JObject
                        [("success", JBool false);
                         ("error", JString "Failed to verify course")])))
         | PgData coursePrice =>
             (* Ensure the course is free *)
             if gt coursePrice zero then mret not_a_free_course
             else
               enrollmentData ←
                 createEnrollmentWithPayment userId courseId
                   zero (* Zero amount for free courses *)
                   "free-enrollment" (* No transaction ID for free courses *);
               mret (free_enrollment_created enrollmentData)
         end
     | _, _ =>
         mret (mkResponse 400
                 (Json (JObject
                    [("error", JString "Missing required parameters")])))
     end)
    (fun error =>
       console_error "Error creating free enrollment:" [ArgError error];;
       mret (mkResponse 500
               (Json (JObject
                  [("success", JBool false);
                   ("error", JString "Failed to create enrollment")])))).

End Router.

(** ** Invariants of the store and sequences of operations *)

(** At most one Enrollment per (student, course) pair. *)
Definition unique_enrollments (d : db) : Prop :=
  forall u c : string, length (enrollments_of u c (enrollments d)) <= 1.

(** At most one Payment per (enrollment, transaction reference) pair. *)
Definition unique_payments (d : db) : Prop :=
  forall (eid : id) (ref : string),
    length (payments_of eid ref (payments d)) <= 1.

(** Every Payment references an Enrollment of the store. *)
Definition payments_reference_enrollments (d : db) : Prop :=
  Forall (fun p => enrollment_id p ∈ (enr_id <$> enrollments d)) (payments d).

(** What one operation may do to the store: it leaves the courses alone,
    appends at most one Enrollment, and then only for a pair that has none,
    and appends at most one Payment. *)
Definition store_step (d d' : db) : Prop :=
  courses d' = courses d /\
  (enrollments d' = enrollments d \/
   exists row : enrollment,
     enrollments_of (student_id row) (course_id row) (enrollments d) = [] /\
     enrollments d' = enrollments d ++ [row]) /\
  (payments d' = payments d \/
   exists p : payment, payments d' = payments d ++ [p]).

(** No call of the fault plan fails. *)
Definition no_faults (w : world) : Prop :=
  Forall (fun failed : bool => failed = false) (faults w).

(** The rows the store builds for an insert issued in world [w]. *)
Definition inserted_enrollment `{StoreIds} (u c st : string) (w : world)
  : enrollment :=
  mkEnrollment (new_enrollment_id (enrollments (store w))) u c st.

Definition inserted_payment `{StoreIds} (eid : id) (amt : number)
    (method ref st : string) (w : world) : payment :=
  mkPayment (new_payment_id (payments (store w))) eid amt method ref st.

(** The requests the service accepts, and the helper called directly. *)
Inductive operation : Type :=
  | Reconcile (userId courseId : string) (amt : number) (sessionId : string)
  | CreateCheckoutSession (req : checkout_body)
  | StripeWebhook (req : webhook_request)
  | VerifyPayment (sessionId : string)
  | CreateFreeEnrollment (req : free_enrollment_body).

Section Operations.
Context `{StoreIds} `{Stripe} `{Env}.

(** The world an operation leaves behind. *)
Definition perform (op : operation) (w : world) : world :=
  match op with
  | Reconcile u c amt ref => snd (createEnrollmentWithPayment u c amt ref w)
  | CreateCheckoutSession req => snd (create_checkout_session req w)
  | StripeWebhook req => snd (stripe_webhook req w)
  | VerifyPayment sessionId => snd (verify_payment sessionId w)
  | CreateFreeEnrollment req => snd (create_free_enrollment req w)
  end.

(** Operations run one after the other. *)
Definition perform_all (ops : list operation) (w : world) : world :=
  foldl (fun w op => perform op w) w ops.

End Operations.

(** ** A store, a configuration and a processor to run scenarios against *)

(** A store that numbers its rows in sequence. *)
Definition next_id (ids : list id) : id := N.succ (foldr N.max 0%N ids).

Definition sequential_ids : StoreIds.
Proof.
  refine {| new_enrollment_id l := next_id (enr_id <$> l);
            new_payment_id l := next_id (pay_id <$> l) |}.
  assert (Habove : forall (ids : list id) (i : id),
             i ∈ ids -> (i < next_id ids)%N).
  { unfold next_id. induction ids as [|a ids IH]; intros i Hi.
    - inversion Hi.
    - apply elem_of_cons in Hi as [->|Hi]; simpl; [lia|].
      specialize (IH i Hi). lia. }
  intros l Hin. apply Habove in Hin. lia.
Defined.

(** The store of the scenarios: user [u1] is enrolled in course [c1], which
    costs 49.99; course [c0] is free. *)
Definition enrolled : db :=
  mkDb [mkEnrollment 1%N "u1" "c1" "active"] []
    [mkCourse "c1" (of_decimal 4999 2); mkCourse "c0" zero].

(** The same catalogue with nobody enrolled. *)
Definition catalogue : db :=
  mkDb [] [] [mkCourse "c1" (of_decimal 4999 2); mkCourse "c0" zero].

(** The configuration: no front-end URL set, a webhook secret set. *)
Definition test_env : Env :=
  {| env_FRONTEND_URL := None;
     env_STRIPE_WEBHOOK_SECRET := Some "whsec_test" |}.

(** A session as the processor reports it once it is paid. *)
Definition paid_session (sessionId courseId userId : string) (cents : Z)
  : checkout_session :=
  mkSession sessionId None "paid"
    (Some (<["courseId" := courseId]> (<["userId" := userId]> ∅)))
    (Some (of_Z cents)) (Some "pi_1").

(** A processor that creates the session [cs_test_1], knows no session to
    retrieve, and accepts exactly the signature [t=1,v1=valid], for which it
    delivers the completed checkout of course [c1] by user [u1]. *)
Definition test_stripe : Stripe :=
  {| checkout_sessions_create params :=
       inr (mkSession "cs_test_1" (Some "https://checkout.stripe.com/c/pay/cs_test_1")
              "unpaid" (Some (metadata params)) None None);
     checkout_sessions_retrieve sessionId :=
       inl ("No such checkout.session: " +:+ sessionId);
     webhooks_constructEvent payload sig endpointSecret :=
       if decide (sig = "t=1,v1=valid" /\ endpointSecret = "whsec_test")
       then inr (mkEvent "checkout.session.completed"
                   (paid_session "cs_test_1" "c1" "u1" 4999))
       else inl "No signatures found matching the expected signature for payload"
  |}.

(** ** Further notions used to state what the handlers do *)

(** A Payment as this service writes it: a positive amount, paid through the
    processor, completed. *)
Definition payment_as_written (p : payment) : Prop :=
  gt (amount p) zero = true /\
  payment_method p = "stripe" /\
  pay_status p = "completed".

(** The 400 answer of the two POST endpoints to a request that lacks a
    required field. *)
Definition missing_parameters : response :=
  mkResponse 400
    (Json (JObject [("error", JString "Missing required parameters")])).

(** The answers of GET /api/verify-payment/:sessionId. *)
Definition payment_not_completed (paymentStatus : string) : response :=
  mkResponse 200
    (Json (JObject
       [("success", JBool false);
        ("message", JString "Payment not completed");
        ("paymentStatus", JString paymentStatus)])).

Definition verification_failed : response :=
  mkResponse 500
    (Json (JObject [("error", JString "Failed to verify payment")])).

Definition enrollment_record_failed : response :=
  mkResponse 500
    (Json (JObject
       [("success", JBool false);
        ("error", JString "Failed to create enrollment record");
        ("message", JString "Your payment was successful, but we could not complete your enrollment. Please contact support.")])).

Definition payment_verified (session : checkout_session)
    (courseId userId : string) (amt : number) (sessionId : string)
    (d : enrollment_data) : response :=
  mkResponse 200
    (Json (JObject
       [("success", JBool true);
        ("courseId", JString courseId);
        ("userId", JString userId);
        ("amount", JNumber amt);
        ("paymentId", json_of_nullable (payment_intent session));
        ("transactionId", JString sessionId);
        ("enrollmentId", json_of_id (enrollment_data_id d));
        ("enrollment", json_of_enrollment_data d)])).

(** The 500 answers of POST /api/create-free-enrollment. *)
Definition course_verification_failed : response :=
  mkResponse 500
    (Json (JObject
       [("success", JBool false);
        ("error", JString "Failed to verify course")])).

Definition free_enrollment_failed : response :=
  mkResponse 500
    (Json (JObject
       [("success", JBool false);
        ("error", JString "Failed to create enrollment")])).

(** Structural equality of two doubles, as a boolean. *)
Definition same_number (x y : number) : bool :=
  match x, y with
  | S754_zero s, S754_zero s' => Bool.eqb s s'
  | S754_infinity s, S754_infinity s' => Bool.eqb s s'
  | S754_nan, S754_nan => true
  | S754_finite s m e, S754_finite s' m' e' =>
      Bool.eqb s s' && (m =? m')%positive && (e =? e')%Z
  | _, _ => false
  end.

(** A price of [n] cents written with two decimals comes out of the
    checkout's conversion [Math.round(price * 100)] as [n], and [n] is a
    number the webhook's [amount_total || 0] keeps (or is [0]). *)
Definition cents_round_trip (n : N) : bool :=
  same_number (Math_round (mul (of_decimal (Z.of_N n) 2) (of_Z 100)))
    (of_Z (Z.of_N n)) &&
  (truthy (of_Z (Z.of_N n)) || (n =? 0)%N).

(** [f 0 && f 1 && ... && f (n - 1)] *)
Definition all_below (n : N) (f : N -> bool) : bool :=
  snd (N.iter n (fun st : N * bool => (N.succ (fst st), snd st && f (fst st)))
         (0%N, true)).

(** The four endpoints of the router that reach the processor or the store. *)
Inductive request : Type :=
  | PostCheckoutSession (req : checkout_body)
  | PostStripeWebhook (req : webhook_request)
  | GetVerifyPayment (sessionId : string)
  | PostFreeEnrollment (req : free_enrollment_body).

Definition route `{StoreIds} `{Stripe} `{Env} (r : request) : M response :=
  match r with
  | PostCheckoutSession req => create_checkout_session req
  | PostStripeWebhook req => stripe_webhook req
  | GetVerifyPayment sessionId => verify_payment sessionId
  | PostFreeEnrollment req => create_free_enrollment req
  end.

(** A processor for the scenarios of the verification endpoint.  It knows
    four sessions: [cs_test_1], paid for course [c1] by user [u1] with a total
    of 4999; [cs_unpaid], not paid; [cs_nometa], paid but without metadata;
    and [cs_zero], paid with no total.  It accepts the signatures
    [t=1,v1=valid], [t=1,v1=nometa] and [t=1,v1=zero], which deliver the
    completed checkout of the session of that name, and [t=1,v1=refund],
    which delivers an event of another type. *)
Definition scenario_session (sessionId : string) : option checkout_session :=
  if decide (sessionId = "cs_test_1")
  then Some (paid_session "cs_test_1" "c1" "u1" 4999)
  else if decide (sessionId = "cs_unpaid")
  then Some (mkSession "cs_unpaid" None "unpaid"
               (Some (<["courseId" := "c1"]> (<["userId" := "u1"]> ∅)))
               (Some (of_Z 4999)) None)
  else if decide (sessionId = "cs_nometa")
  then Some (mkSession "cs_nometa" None "paid" None (Some (of_Z 4999)) None)
  else if decide (sessionId = "cs_zero")
  then Some (mkSession "cs_zero" None "paid"
               (Some (<["courseId" := "c1"]> (<["userId" := "u1"]> ∅)))
               None None)
  else None.

Definition scenario_event (sig : string) : option stripe_event :=
  if decide (sig = "t=1,v1=valid")
  then mkEvent "checkout.session.completed" <$> scenario_session "cs_test_1"
  else if decide (sig = "t=1,v1=nometa")
  then mkEvent "checkout.session.completed" <$> scenario_session "cs_nometa"
  else if decide (sig = "t=1,v1=zero")
  then mkEvent "checkout.session.completed" <$> scenario_session "cs_zero"
  else if decide (sig = "t=1,v1=refund")
  then mkEvent "charge.refunded" <$> scenario_session "cs_test_1"
  else None.

Definition scenario_stripe : Stripe :=
  {| checkout_sessions_create params :=
       inr (mkSession "cs_test_1" None "unpaid" (Some (metadata params))
              None None);
     checkout_sessions_retrieve sessionId :=
       match scenario_session sessionId with
       | Some session => inr session
       | None => inl ("No such checkout.session: " +:+ sessionId)
       end;
     webhooks_constructEvent payload sig endpointSecret :=
       match scenario_event sig with
       | Some event =>
           if decide (endpointSecret = "whsec_test") then inr event
           else inl "No signatures found matching the expected signature for payload"
       | None =>
           inl "No signatures found matching the expected signature for payload"
       end
  |}.

(** * Properties *)

(** ** JavaScript comparisons with zero *)

Lemma le_zero_not_gt (x : number) : le x zero = true -> gt x zero = false.
Proof. destruct x as [[]|[]| |[] m e]; cbv; congruence. Qed.

(** ** One call to the store *)

Local Arguments String.append : simpl never.

Section StoreRuns.
Context `{StoreIds}.

Lemma select_enrollment_run (u c : string) (w : world) :
  select_enrollment u c w =
  (Return (if fails w then PgError StoreFault
           else maybeSingle (enr_id <$> enrollments_of u c (enrollments (store w)))),
   issued (SelectEnrollment u c) w).
Proof.
  unfold select_enrollment, mbind, M_bind, mret, M_ret, issue, read_store.
  destruct (fails w); reflexivity.
Qed.

Lemma select_payment_run (eid : id) (ref : string) (w : world) :
  select_payment eid ref w =
  (Return (if fails w then PgError StoreFault
           else maybeSingle (pay_id <$> payments_of eid ref (payments (store w)))),
   issued (SelectPayment eid ref) w).
Proof.
  unfold select_payment, mbind, M_bind, mret, M_ret, issue, read_store.
  destruct (fails w); reflexivity.
Qed.

Lemma select_course_price_run (c : string) (w : world) :
  select_course_price c w =
  (Return (if fails w then PgError StoreFault
           else single (price <$> filter (fun k => crs_id k = c) (courses (store w)))),
   issued (SelectCourse c) w).
Proof.
  unfold select_course_price, mbind, M_bind, mret, M_ret, issue, read_store.
  destruct (fails w); reflexivity.
Qed.

Lemma insert_enrollment_run (u c st : string) (w : world) :
  insert_enrollment u c st w =
  if fails w then (Return (PgError StoreFault), issued (InsertEnrollment u c st) w)
  else
    (Return (PgData (inserted_enrollment u c st w)),
     mkWorld
       (mkDb (enrollments (store w) ++ [inserted_enrollment u c st w])
          (payments (store w)) (courses (store w)))
       (tail (faults w)) (calls w ++ [InsertEnrollment u c st]) (console w)).
Proof.
  unfold insert_enrollment, mbind, M_bind, mret, M_ret, issue, read_store,
    write_store.
  destruct (fails w); reflexivity.
Qed.

Lemma insert_payment_run (eid : id) (amt : number) (method ref st : string)
    (w : world) :
  insert_payment eid amt method ref st w =
  if fails w
  then (Return (PgError StoreFault), issued (InsertPayment eid amt method ref st) w)
  else
    (Return (PgData tt),
     mkWorld
       (mkDb (enrollments (store w))
          (payments (store w) ++ [inserted_payment eid amt method ref st w])
          (courses (store w)))
       (tail (faults w)) (calls w ++ [InsertPayment eid amt method ref st])
       (console w)).
Proof.
  unfold insert_payment, mbind, M_bind, mret, M_ret, issue, read_store,
    write_store.
  destruct (fails w); reflexivity.
Qed.

End StoreRuns.

(** ** Projections of a world after a call or a console entry *)

Lemma fails_logged (l : log_entry) (w : world) : fails (logged l w) = fails w.
Proof. reflexivity. Qed.

Lemma store_logged (l : log_entry) (w : world) : store (logged l w) = store w.
Proof. reflexivity. Qed.

Lemma calls_logged (l : log_entry) (w : world) : calls (logged l w) = calls w.
Proof. reflexivity. Qed.

Lemma faults_logged (l : log_entry) (w : world) : faults (logged l w) = faults w.
Proof. reflexivity. Qed.

Lemma store_issued (c : store_call) (w : world) : store (issued c w) = store w.
Proof. reflexivity. Qed.

Lemma calls_issued (c : store_call) (w : world) :
  calls (issued c w) = calls w ++ [c].
Proof. reflexivity. Qed.

Lemma faults_issued (c : store_call) (w : world) :
  faults (issued c w) = tail (faults w).
Proof. reflexivity. Qed.

Lemma issued_logged (c : store_call) (l : log_entry) (w : world) :
  issued c (logged l w) = logged l (issued c w).
Proof. reflexivity. Qed.

Create Rewrite HintDb world.
#[export] Hint Rewrite issued_logged fails_logged store_logged calls_logged
  faults_logged store_issued calls_issued faults_issued : world.

Ltac unfold_reconciler :=
  unfold createEnrollmentWithPayment, mbind, M_bind, mret, M_ret, throw,
    console_log, console_error;
  rewrite select_enrollment_run; autorewrite with world.

Lemma absent_payment : negb (bool_decide (is_Some (@None id))) = true.
Proof. reflexivity. Qed.

Lemma present_payment (i : id) : negb (bool_decide (is_Some (Some i))) = false.
Proof. reflexivity. Qed.

Ltac world_norm :=
  unfold fails, issued, logged, inserted_enrollment, inserted_payment in *;
  cbn [store faults calls console enrollments payments courses fst snd
       enr_id] in *.

Ltac reconciler_paths :=
  unfold_reconciler;
  repeat (first
    [ rewrite select_payment_run
    | rewrite insert_enrollment_run
    | rewrite insert_payment_run
    | match goal with
      | |- context [if fails ?w then _ else _] => destruct (fails w) eqn:?
      | |- context [maybeSingle ?l] =>
          destruct l as [|? [|? ?]] eqn:?; cbn [maybeSingle]
      | |- context [negb (bool_decide (is_Some ?o))] =>
          destruct o; [rewrite present_payment | rewrite absent_payment]
      | |- context [if gt ?a zero then _ else _] => destruct (gt a zero) eqn:?
      end ];
    cbn [andb]; cbn beta iota).

Section ReconcilerRuns.
Context `{StoreIds}.

(** C5. A failure of the enrollment lookup (step 1), of the payment lookup
    (step 2a) or of the Enrollment creation (step 3) aborts the reconciler and
    is thrown to the caller; the store is left as it was and the calls made
    are exactly the ones up to the failed one, so that after a failed
    Enrollment creation no Payment write is issued. *)
Theorem reconcile_failures_propagate
    (u c : string) (amt : number) (ref : string) (w : world) (e : store_error) :
  let r := createEnrollmentWithPayment u c amt ref w in
  (fst (select_enrollment u c w) = Return (PgError e) ->
     fst r = Throw (PostgrestError e) /\
     store (snd r) = store w /\
     calls (snd r) = calls w ++ [SelectEnrollment u c])
  /\
  (forall (eid : id) (w1 : world),
     select_enrollment u c w = (Return (PgData (Some eid)), w1) ->
     fst (select_payment eid ref w1) = Return (PgError e) ->
     fst r = Throw (PostgrestError e) /\
     store (snd r) = store w /\
     calls (snd r) = calls w ++ [SelectEnrollment u c; SelectPayment eid ref])
  /\
  (forall w1 : world,
     select_enrollment u c w = (Return (PgData None), w1) ->
     fst (insert_enrollment u c "active" w1) = Return (PgError e) ->
     fst r = Throw (PostgrestError e) /\
     store (snd r) = store w /\
     calls (snd r) =
       calls w ++ [SelectEnrollment u c; InsertEnrollment u c "active"]).
Proof.
  intros r. subst r. split; [|split].
  - rewrite select_enrollment_run. cbn [fst]. intros Hsel. injection Hsel as Hsel.
    unfold_reconciler. rewrite Hsel. cbn. auto.
  - intros eid w1. rewrite select_enrollment_run. intros Hsel.
    injection Hsel as Hsel <-. rewrite select_payment_run. cbn [fst].
    intros Hpay. injection Hpay as Hpay. autorewrite with world in Hpay.
    unfold_reconciler. rewrite Hsel. rewrite select_payment_run.
    autorewrite with world. rewrite Hpay. cbn. rewrite <- app_assoc. auto.
  - intros w1. rewrite select_enrollment_run. intros Hsel.
    injection Hsel as Hsel <-. rewrite insert_enrollment_run.
    destruct (fails (issued _ w)) eqn:Hf; cbn [fst]; [|discriminate].
    intros He. injection He as <-.
    unfold_reconciler. rewrite Hsel. rewrite insert_enrollment_run.
    autorewrite with world. rewrite Hf. cbn. rewrite <- app_assoc. auto.
Qed.

(** What a store call answers depends on the fault plan and on the tables
    only. *)
Lemma insert_payment_answer (eid : id) (amt : number) (method ref st : string)
    (w : world) :
  fst (insert_payment eid amt method ref st w) =
  Return (if fails w then PgError StoreFault else PgData tt).
Proof. rewrite insert_payment_run. destruct (fails w); reflexivity. Qed.

Lemma maybeSingle_None {A : Type} (l : list A) :
  maybeSingle l = PgData None -> l = [].
Proof. destruct l as [|a [|b l]]; cbn; congruence. Qed.

Lemma answer_none {A B : Type} (f : A -> B) (failed : bool) (l : list A) :
  (if failed then PgError StoreFault else maybeSingle (f <$> l)) = PgData None ->
  failed = false /\ l = [].
Proof.
  destruct failed; [discriminate|]. intros Hl. split; [reflexivity|].
  apply maybeSingle_None in Hl. eapply fmap_nil_inv, Hl.
Qed.

Lemma enrollments_of_snoc (u c : string) (l : list enrollment) (st : string)
    (i : id) :
  enrollments_of u c (l ++ [mkEnrollment i u c st]) =
  enrollments_of u c l ++ [mkEnrollment i u c st].
Proof.
  unfold enrollments_of. rewrite filter_app.
  rewrite (filter_cons_True _ (mkEnrollment i u c st)); [reflexivity|auto].
Qed.

Lemma enrollments_of_snoc_other (u c u' c' : string) (l : list enrollment)
    (st : string) (i : id) :
  (u', c') <> (u, c) ->
  enrollments_of u c (l ++ [mkEnrollment i u' c' st]) = enrollments_of u c l.
Proof.
  intros Hne. unfold enrollments_of. rewrite filter_app.
  rewrite (filter_cons_False _ (mkEnrollment i u' c' st)); [apply app_nil_r|].
  cbn. intros [-> ->]. apply Hne. reflexivity.
Qed.

(** C2. On the new-enrollment branch with a positive amount, a failed
    Payment insert is logged and not thrown: the helper returns the row it
    just created, the row stays in the store (a later lookup for the pair
    finds it) and the payments table is unchanged. *)
Theorem reconcile_keeps_new_enrollment_when_payment_fails
    (u c : string) (amt : number) (ref : string) (w w1 w2 : world)
    (row : enrollment) (e : store_error) :
  select_enrollment u c w = (Return (PgData None), w1) ->
  insert_enrollment u c "active" w1 = (Return (PgData row), w2) ->
  gt amt zero = true ->
  fst (insert_payment (enr_id row) amt "stripe" ref "completed" w2)
    = Return (PgError e) ->
  let r := createEnrollmentWithPayment u c amt ref w in
  fst r = Return (NewEnrollment row) /\
  enrollments (store (snd r)) = enrollments (store w) ++ [row] /\
  payments (store (snd r)) = payments (store w) /\
  enrollments_of u c (enrollments (store (snd r))) = [row] /\
  (forall w' : world,
     store w' = store (snd r) -> fails w' = false ->
     fst (select_enrollment u c w') = Return (PgData (Some (enr_id row)))) /\
  last (console (snd r)) =
    Some (LogError "Error creating payment record:"
            [ArgError (PostgrestError e)]).
Proof.
  rewrite select_enrollment_run. intros Hsel. injection Hsel as Hsel <-.
  rewrite insert_enrollment_run.
  destruct (fails (issued _ w)) eqn:Hins; [discriminate|].
  intros Hrow. injection Hrow as <- <-. intros Hgt.
  rewrite insert_payment_answer.
  match goal with |- context [fails ?x] => destruct (fails x) eqn:Hpay end;
    [|discriminate].
  intros He. injection He as <-. intros r. subst r.
  unfold_reconciler. rewrite Hsel, insert_enrollment_run.
  autorewrite with world. rewrite Hins. cbn beta iota. rewrite Hgt.
  rewrite insert_payment_run. world_norm. rewrite Hpay.
  apply answer_none in Hsel as [Hf Hnone]. cbn [fst snd store enrollments payments console].
  assert (Hof : enrollments_of u c
                  (enrollments (store w) ++
                   [mkEnrollment (new_enrollment_id (enrollments (store w))) u c "active"])
                = [mkEnrollment (new_enrollment_id (enrollments (store w))) u c "active"]).
  { rewrite enrollments_of_snoc, Hnone. reflexivity. }
  repeat split; try reflexivity.
  - exact Hof.
  - intros w' Hst Hok. rewrite select_enrollment_run. world_norm.
    rewrite Hok, Hst. cbn [store enrollments].
    rewrite Hof. reflexivity.
  - rewrite last_snoc. reflexivity.
Qed.

(** C1 (as the code has it). With an Enrollment found for the pair, no Payment
    found for the reference and a positive amount, a failed Payment insert is
    logged and thrown to the caller: the helper does not return the existing
    Enrollment, and the store is left as it was. *)
Theorem reconcile_throws_when_payment_fails_on_existing_enrollment
    (u c : string) (amt : number) (ref : string) (w w1 w2 : world)
    (eid : id) (e : store_error) :
  select_enrollment u c w = (Return (PgData (Some eid)), w1) ->
  select_payment eid ref w1 = (Return (PgData None), w2) ->
  gt amt zero = true ->
  fst (insert_payment eid amt "stripe" ref "completed" w2)
    = Return (PgError e) ->
  let r := createEnrollmentWithPayment u c amt ref w in
  fst r = Throw (PostgrestError e) /\
  store (snd r) = store w /\
  calls (snd r) =
    calls w ++ [SelectEnrollment u c; SelectPayment eid ref;
                InsertPayment eid amt "stripe" ref "completed"] /\
  last (console (snd r)) =
    Some (LogError "Error creating payment record:"
            [ArgError (PostgrestError e)]).
Proof.
  rewrite select_enrollment_run. intros Hsel. injection Hsel as Hsel <-.
  rewrite select_payment_run. intros Hpay. injection Hpay as Hpay <-.
  intros Hgt. rewrite insert_payment_answer.
  match goal with |- context [fails ?x] => destruct (fails x) eqn:Hins end;
    [|discriminate].
  intros He. injection He as <-. intros r. subst r.
  unfold_reconciler. rewrite Hsel, select_payment_run.
  autorewrite with world in *. rewrite Hpay. cbn beta iota.
  rewrite Hgt, absent_payment. cbn [andb].
  rewrite insert_payment_run. autorewrite with world. rewrite Hins.
  world_norm. repeat split; [rewrite <- !app_assoc; reflexivity|apply last_snoc].
Qed.


Lemma no_faults_tail (fs : list bool) :
  Forall (fun failed : bool => failed = false) fs ->
  default false (head fs) = false /\
  Forall (fun failed : bool => failed = false) (tail fs).
Proof.
  intros Hall. split; [|apply Forall_tail, Hall].
  destruct Hall as [|b fs -> _]; reflexivity.
Qed.

Lemma payments_of_fresh_enrollment (d : db) (ref : string) :
  payments_reference_enrollments d ->
  payments_of (new_enrollment_id (enrollments d)) ref (payments d) = [].
Proof.
  intros Hfk. unfold payments_of.
  destruct (filter _ (payments d)) as [|p l] eqn:Hfil; [reflexivity|].
  assert (Hp : p ∈ filter
            (fun p => enrollment_id p = new_enrollment_id (enrollments d)
                      /\ transaction_id p = ref) (payments d)).
  { rewrite Hfil. apply list_elem_of_here. }
  apply list_elem_of_filter in Hp as [[Heid _] Hin].
  unfold payments_reference_enrollments in Hfk.
  rewrite Forall_forall in Hfk. apply Hfk in Hin. rewrite Heid in Hin.
  exfalso. exact (new_enrollment_id_fresh _ Hin).
Qed.

Lemma payments_of_snoc (eid : id) (ref : string) (l : list payment)
    (i : id) (amt : number) (method st : string) :
  payments_of eid ref (l ++ [mkPayment i eid amt method ref st]) =
  payments_of eid ref l ++ [mkPayment i eid amt method ref st].
Proof.
  unfold payments_of. rewrite filter_app.
  rewrite (filter_cons_True _ (mkPayment i eid amt method ref st));
    [reflexivity|auto].
Qed.

(** C3. With a positive amount, a store that holds no Enrollment for the
    pair, and store calls that succeed, two calls with the same arguments
    leave exactly one Enrollment for the pair and exactly one Payment for
    (that Enrollment, the reference): the first call inserts both rows, the
    second finds both and issues two lookups and no write. *)
Theorem reconcile_twice_same_reference
    (u c : string) (amt : number) (ref : string) (w : world) :
  enrollments_of u c (enrollments (store w)) = [] ->
  payments_reference_enrollments (store w) ->
  gt amt zero = true ->
  no_faults w ->
  let r1 := createEnrollmentWithPayment u c amt ref w in
  let r2 := createEnrollmentWithPayment u c amt ref (snd r1) in
  let row := inserted_enrollment u c "active" w in
  let pay := inserted_payment (enr_id row) amt "stripe" ref "completed" w in
  fst r1 = Return (NewEnrollment row) /\
  fst r2 = Return (ExistingEnrollment (enr_id row)) /\
  enrollments (store (snd r2)) = enrollments (store w) ++ [row] /\
  payments (store (snd r2)) = payments (store w) ++ [pay] /\
  enrollments_of u c (enrollments (store (snd r2))) = [row] /\
  payments_of (enr_id row) ref (payments (store (snd r2))) = [pay] /\
  store (snd r2) = store (snd r1) /\
  calls (snd r2) =
    calls (snd r1) ++ [SelectEnrollment u c; SelectPayment (enr_id row) ref].
Proof.
  intros Hnone Hfk Hgt Hok. unfold no_faults in Hok.
  apply no_faults_tail in Hok as [Hf1 Hok].
  apply no_faults_tail in Hok as [Hf2 Hok].
  apply no_faults_tail in Hok as [Hf3 Hok].
  apply no_faults_tail in Hok as [Hf4 Hok].
  apply no_faults_tail in Hok as [Hf5 _].
  intros r1 r2 row pay.
  assert (Hr1 : r1 =
    (Return (NewEnrollment row),
     mkWorld
       (mkDb (enrollments (store w) ++ [row]) (payments (store w) ++ [pay])
          (courses (store w)))
       (tail (tail (tail (faults w))))
       (calls w ++ [SelectEnrollment u c; InsertEnrollment u c "active";
                    InsertPayment (enr_id row) amt "stripe" ref "completed"])
       (console w ++
        [LogInfo ("Creating enrollment for user " +:+ u +:+ " in course " +:+ c)]))).
  { subst r1 row pay. unfold_reconciler. world_norm.
    rewrite Hf1, Hnone. cbn [fmap list_fmap maybeSingle].
    rewrite insert_enrollment_run. world_norm. rewrite Hf2.
    rewrite Hgt, insert_payment_run. world_norm. rewrite Hf3.
    rewrite <- !app_assoc. reflexivity. }
  assert (Hrow : enrollments_of u c (enrollments (store w) ++ [row]) = [row]).
  { subst row. unfold inserted_enrollment.
    rewrite enrollments_of_snoc, Hnone. reflexivity. }
  assert (Hpay : payments_of (enr_id row) ref (payments (store w) ++ [pay])
                 = [pay]).
  { subst row pay. unfold inserted_enrollment, inserted_payment. cbn [enr_id].
    rewrite payments_of_snoc, payments_of_fresh_enrollment by exact Hfk.
    reflexivity. }
  assert (Hr2 : r2 =
    (Return (ExistingEnrollment (enr_id row)),
     mkWorld (store (snd r1)) (tail (tail (faults (snd r1))))
       (calls (snd r1) ++
        [SelectEnrollment u c; SelectPayment (enr_id row) ref])
       (console (snd r1) ++
        [LogInfo ("Creating enrollment for user " +:+ u +:+ " in course " +:+ c);
         LogInfo ("User " +:+ u +:+ " already enrolled in course " +:+ c)]))).
  { subst r2. rewrite Hr1. cbn [snd]. clearbody row pay.
    unfold_reconciler. world_norm. rewrite Hf4, Hrow.
    cbn [fmap list_fmap maybeSingle].
    rewrite select_payment_run. world_norm. rewrite Hf5, Hpay.
    cbn [fmap list_fmap maybeSingle]. rewrite present_payment.
    cbn [andb]. rewrite <- !app_assoc. reflexivity. }
  rewrite Hr2, Hr1. cbn [fst snd store enrollments payments calls].
  rewrite Hrow, Hpay. repeat split; reflexivity.
Qed.


(** ** What one call of the reconciler can do to the store *)

Lemma reconcile_effect (u c : string) (amt : number) (ref : string) (w : world) :
  let w' := snd (createEnrollmentWithPayment u c amt ref w) in
  courses (store w') = courses (store w) /\
  (enrollments (store w') = enrollments (store w) \/
   enrollments_of u c (enrollments (store w)) = [] /\
   enrollments (store w') =
     enrollments (store w) ++ [inserted_enrollment u c "active" w]) /\
  (payments (store w') = payments (store w) \/
   gt amt zero = true /\
   exists p : payment, payments (store w') = payments (store w) ++ [p]) /\
  exists cs : list store_call,
    calls w' = calls w ++ cs /\
    (gt amt zero = false -> Forall (fun k => is_payment_write k = false) cs).
Proof.
  intros w'. subst w'.
  destruct (createEnrollmentWithPayment u c amt ref w) as [o w'] eqn:Hrun.
  cbn [snd]. revert Hrun. reconciler_paths.
  all: intros [= <- <-]; world_norm.
  all: split; [reflexivity|].
  all: split;
    [ first [ left; reflexivity
            | right; split; [eapply fmap_nil_inv; eassumption | reflexivity] ] |].
  all: split;
    [ first [ left; reflexivity
            | right; split; [reflexivity | eexists; reflexivity] ] |].
  all: eexists; (split; [rewrite <- ?app_assoc; reflexivity|]).
  all: intros Hle; try congruence; repeat constructor.
Qed.

(** C10. With an amount that is zero or negative no Payment is written on
    either branch: the payments table is unchanged and no Payment insert is
    among the calls issued.  With an Enrollment found and no Payment for the
    reference the calls are the two lookups; with no Enrollment found and a
    successful creation the calls are the lookup and the Enrollment insert.
    On the new-enrollment branch the test [amount > 0] alone decides whether
    the Payment insert is issued. *)
Theorem reconcile_non_positive_amount_writes_no_payment
    (u c : string) (amt : number) (ref : string) (w : world) :
  let r := createEnrollmentWithPayment u c amt ref w in
  (le amt zero = true ->
   payments (store (snd r)) = payments (store w) /\
   (exists cs : list store_call,
      calls (snd r) = calls w ++ cs /\
      Forall (fun k => is_payment_write k = false) cs) /\
   (forall (eid : id) (w1 : world),
      select_enrollment u c w = (Return (PgData (Some eid)), w1) ->
      fst (select_payment eid ref w1) = Return (PgData None) ->
      fst r = Return (ExistingEnrollment eid) /\
      calls (snd r) = calls w ++ [SelectEnrollment u c; SelectPayment eid ref]))
  /\
  (forall (w1 w2 : world) (row : enrollment),
     select_enrollment u c w = (Return (PgData None), w1) ->
     insert_enrollment u c "active" w1 = (Return (PgData row), w2) ->
     fst r = Return (NewEnrollment row) /\
     enrollments (store (snd r)) = enrollments (store w) ++ [row] /\
     calls (snd r) =
       calls w ++ [SelectEnrollment u c; InsertEnrollment u c "active"] ++
       (if gt amt zero
        then [InsertPayment (enr_id row) amt "stripe" ref "completed"]
        else [])).
Proof.
  intros r. split.
  - intros Hle. apply le_zero_not_gt in Hle.
    destruct (reconcile_effect u c amt ref w) as (_ & _ & Hpay & cs & Hcs & Hnw).
    fold r in Hpay, Hcs. split; [|split].
    + destruct Hpay as [Hpay|[Hgt _]]; [exact Hpay|congruence].
    + exists cs. auto.
    + intros eid w1. rewrite select_enrollment_run. intros [= Hsel <-].
      rewrite select_payment_run. cbn [fst]. intros [= Hp].
      subst r. unfold_reconciler. rewrite Hsel, select_payment_run.
      autorewrite with world in *. rewrite Hp. cbn beta iota. rewrite Hle.
      rewrite andb_false_r. world_norm. rewrite <- app_assoc. auto.
  - intros w1 w2 row. rewrite select_enrollment_run. intros [= Hsel <-].
    rewrite insert_enrollment_run.
    destruct (fails (issued _ w)) eqn:Hins; [discriminate|].
    intros [= <- <-]. subst r. unfold_reconciler.
    rewrite Hsel, insert_enrollment_run. autorewrite with world.
    rewrite Hins. cbn beta iota.
    destruct (gt amt zero); [rewrite insert_payment_run|].
    + match goal with |- context [if fails ?x then _ else _] =>
        destruct (fails x) end; world_norm; rewrite <- !app_assoc; auto.
    + world_norm. rewrite <- !app_assoc. auto.
Qed.


Lemma reconcile_store_step (u c : string) (amt : number) (ref : string)
    (w : world) :
  store_step (store w) (store (snd (createEnrollmentWithPayment u c amt ref w))).
Proof.
  destruct (reconcile_effect u c amt ref w) as (Hc & He & Hp & _).
  split; [exact Hc|]. split.
  - destruct He as [He|[Hnone He]]; [left; exact He|right].
    exists (inserted_enrollment u c "active" w). split; [exact Hnone|exact He].
  - destruct Hp as [Hp|[_ Hp]]; [left; exact Hp|right; exact Hp].
Qed.

End ReconcilerRuns.

(** ** Steps of the store preserve its invariant *)

Lemma store_step_refl (d : db) : store_step d d.
Proof. split; [reflexivity|]. split; left; reflexivity. Qed.

Lemma store_step_enrollments_of (d d' : db) (u c : string) :
  store_step d d' ->
  enrollments_of u c (enrollments d') = enrollments_of u c (enrollments d) \/
  enrollments_of u c (enrollments d) = [] /\
  length (enrollments_of u c (enrollments d')) = 1.
Proof.
  intros (_ & [->|(row & Hnone & ->)] & _); [left; reflexivity|].
  destruct row as [i u' c' st]. cbn [student_id course_id] in Hnone.
  destruct (decide ((u', c') = (u, c))) as [[= -> ->]|Hne].
  - right. split; [exact Hnone|].
    rewrite enrollments_of_snoc, Hnone. reflexivity.
  - left. apply enrollments_of_snoc_other, Hne.
Qed.

Lemma store_step_existing (d d' : db) (u c : string) :
  store_step d d' ->
  enrollments_of u c (enrollments d) <> [] ->
  enrollments_of u c (enrollments d') = enrollments_of u c (enrollments d).
Proof.
  intros Hstep Hex.
  destruct (store_step_enrollments_of d d' u c Hstep) as [Heq|[Hnone _]];
    [exact Heq|contradiction].
Qed.

Lemma store_step_unique (d d' : db) :
  store_step d d' -> unique_enrollments d -> unique_enrollments d'.
Proof.
  intros Hstep Huniq u c.
  destruct (store_step_enrollments_of d d' u c Hstep) as [->|[_ ->]];
    [apply Huniq|lia].
Qed.

Lemma store_step_payments (d d' : db) :
  store_step d d' -> length (payments d') <= length (payments d) + 1.
Proof.
  intros (_ & _ & [->|[p ->]]); [lia|]. rewrite length_app. cbn. lia.
Qed.

Section RouterRuns.
Context `{StoreIds} `{Stripe} `{Env}.

Ltac use_reconcile_step :=
  match goal with
  | Hrun : createEnrollmentWithPayment ?u ?c ?a ?r ?w = (_, ?w') |- _ =>
      let Hstep := fresh "Hstep" in
      pose proof (reconcile_store_step u c a r w) as Hstep;
      rewrite Hrun in Hstep; exact Hstep
  end.

Lemma select_course_price_store (c : string) (w w' : world)
    (r : outcome (pg_result number)) :
  select_course_price c w = (r, w') -> store w' = store w.
Proof. rewrite select_course_price_run. intros [= _ <-]. reflexivity. Qed.

Lemma perform_store_step (op : operation) (w : world) :
  store_step (store w) (store (perform op w)).
Proof.
  destruct op as [u c amt ref|req|req|sessionId|req]; cbn [perform].
  - apply reconcile_store_step.
  - unfold create_checkout_session, mbind, M_bind, mret, M_ret, console_log,
      console_error.
    repeat case_match; apply store_step_refl.
  - unfold stripe_webhook, mbind, M_bind, mret, M_ret, console_log,
      console_error, try_catch.
    repeat case_match; simplify_eq; cbn [snd]; try apply store_step_refl;
      use_reconcile_step.
  - unfold verify_payment, mbind, M_bind, mret, M_ret, console_log,
      console_error, try_catch, throw.
    repeat case_match; simplify_eq; cbn [snd]; try apply store_step_refl;
      use_reconcile_step.
  - unfold create_free_enrollment, mbind, M_bind, mret, M_ret, console_log,
      console_error, try_catch.
    repeat case_match; simplify_eq; cbn [snd];
      repeat match goal with
      | Hsel : select_course_price _ _ = _ |- _ =>
          apply select_course_price_store in Hsel
      end;
      autorewrite with world;
      try (match goal with Hst : store _ = store w |- _ => rewrite <- Hst end);
      try apply store_step_refl; try use_reconcile_step.
Qed.

Lemma perform_all_snoc (ops : list operation) (op : operation) (w : world) :
  perform_all (ops ++ [op]) w = perform op (perform_all ops w).
Proof. unfold perform_all. rewrite foldl_app. reflexivity. Qed.

(** C4. Once an Enrollment exists for a pair, no sequence of operations
    (calls of the reconciler with any amount and reference, or requests to any
    endpoint) changes the Enrollments of that pair; every sequence of
    operations preserves "at most one Enrollment per (student, course) pair";
    and two calls of the reconciler for one pair with distinct references add
    at most two Payments and leave at most one Enrollment for the pair when
    there was at most one. *)
Theorem at_most_one_enrollment_per_pair (ops : list operation) (w : world) :
  (forall u c : string,
     enrollments_of u c (enrollments (store w)) <> [] ->
     enrollments_of u c (enrollments (store (perform_all ops w))) =
     enrollments_of u c (enrollments (store w)))
  /\
  (unique_enrollments (store w) ->
   unique_enrollments (store (perform_all ops w)))
  /\
  (forall (u c : string) (a1 a2 : number) (ref1 ref2 : string),
     ref1 <> ref2 ->
     let w2 := perform_all [Reconcile u c a1 ref1; Reconcile u c a2 ref2] w in
     length (payments (store w2)) <= length (payments (store w)) + 2 /\
     length (enrollments_of u c (enrollments (store w2))) <=
       Nat.max 1 (length (enrollments_of u c (enrollments (store w))))).
Proof.
  split; [|split].
  - intros u c Hex. induction ops as [|op ops IH] using rev_ind;
      [reflexivity|].
    rewrite perform_all_snoc, <- IH.
    apply store_step_existing; [apply perform_store_step|].
    rewrite IH. exact Hex.
  - intros Huniq. induction ops as [|op ops IH] using rev_ind; [exact Huniq|].
    rewrite perform_all_snoc.
    eapply store_step_unique; [apply perform_store_step|exact IH].
  - intros u c a1 a2 ref1 ref2 _ w2. subst w2. cbn [perform_all foldl].
    set (w1 := perform (Reconcile u c a1 ref1) w).
    pose proof (perform_store_step (Reconcile u c a1 ref1) w) as S1.
    pose proof (perform_store_step (Reconcile u c a2 ref2) w1) as S2.
    fold w1 in S1. split.
    + apply store_step_payments in S1, S2. lia.
    + destruct (store_step_enrollments_of _ _ u c S1) as [E1|[_ E1]];
        destruct (store_step_enrollments_of _ _ u c S2) as [E2|[N2 E2]];
        rewrite ?E2, ?E1; lia.
Qed.

(** C8. A webhook request whose [stripe-signature] header is absent (or
    empty), or whose payload fails the signature verification against the
    configured secret, is answered with status 400; no call to the store is
    made, so no Enrollment and no Payment is written. *)
Theorem webhook_rejects_unverified_payload (req : webhook_request) (w : world) :
  (truthy_string (wr_stripe_signature req) = None \/
   exists sig message : string,
     truthy_string (wr_stripe_signature req) = Some sig /\
     webhooks_constructEvent (wr_payload req) sig
       (or_default env_STRIPE_WEBHOOK_SECRET "") = inl message) ->
  let r := stripe_webhook req w in
  (exists text : string, fst r = Return (mkResponse 400 (Text text))) /\
  store (snd r) = store w /\
  calls (snd r) = calls w.
Proof.
  intros Hbad r. subst r. unfold stripe_webhook.
  destruct Hbad as [->|(sig & message & -> & ->)].
  - cbn. eauto.
  - unfold mbind, M_bind, mret, M_ret, console_error. cbn. eauto.
Qed.

(** C9. A webhook request that passes the signature verification is answered
    with status 200 and [{received: true}], whatever the event type, the
    payment status, the metadata and the outcome of the reconciliation; an
    error thrown by the reconciler is caught and written to the console. *)
Theorem webhook_acknowledges_verified_delivery
    (req : webhook_request) (w : world) (sig : string) (event : stripe_event) :
  truthy_string (wr_stripe_signature req) = Some sig ->
  webhooks_constructEvent (wr_payload req) sig
    (or_default env_STRIPE_WEBHOOK_SECRET "") = inr event ->
  fst (stripe_webhook req w) = Return received /\
  (forall (courseId userId : string) (e : js_error) (w1 : world),
     event_type event = "checkout.session.completed" ->
     payment_status (event_object event) = "paid" ->
     webhook_metadata (event_object event) = Some (courseId, userId) ->
     createEnrollmentWithPayment userId courseId
       (webhook_amount (event_object event))
       (session_id (event_object event)) w = (Throw e, w1) ->
     snd (stripe_webhook req w) =
     logged (LogError "Error processing enrollment:" [ArgError e]) w1).
Proof.
  intros Hsig Hevent. unfold stripe_webhook. rewrite Hsig, Hevent.
  unfold mbind, M_bind, mret, M_ret, console_log, console_error, try_catch.
  split.
  - repeat case_match; simplify_eq; reflexivity.
  - intros courseId userId e w1 Htype Hpaid Hmeta Hrun.
    rewrite decide_True by exact Htype. rewrite decide_True by exact Hpaid.
    rewrite Hmeta, Hrun. reflexivity.
Qed.

(** With store calls that succeed and a store that holds at most one
    Enrollment per pair and at most one Payment per (enrollment, reference),
    the reconciler returns, and the pair is enrolled afterwards. *)
Lemma reconcile_succeeds (u c : string) (amt : number) (ref : string)
    (w : world) :
  unique_enrollments (store w) ->
  unique_payments (store w) ->
  no_faults w ->
  let r := createEnrollmentWithPayment u c amt ref w in
  (exists d : enrollment_data, fst r = Return d) /\
  enrollments_of u c (enrollments (store (snd r))) <> [].
Proof.
  intros Hue Hup Hok r. subst r. unfold no_faults in Hok.
  apply no_faults_tail in Hok as [Hf1 Hok].
  apply no_faults_tail in Hok as [Hf2 Hok].
  apply no_faults_tail in Hok as [Hf3 _].
  specialize (Hue u c).
  unfold_reconciler. world_norm. rewrite Hf1.
  destruct (enrollments_of u c (enrollments (store w)))
    as [|row [|row' rows]] eqn:Hrows; cbn [fmap list_fmap maybeSingle].
  - rewrite insert_enrollment_run. world_norm. rewrite Hf2.
    assert (Hin : enrollments_of u c
              (enrollments (store w) ++
               [mkEnrollment (new_enrollment_id (enrollments (store w))) u c
                  "active"]) <> []).
    { rewrite enrollments_of_snoc, Hrows. discriminate. }
    destruct (gt amt zero); [rewrite insert_payment_run; world_norm; rewrite Hf3|];
      cbn [fst snd store enrollments]; eauto.
  - rewrite select_payment_run. world_norm. rewrite Hf2.
    specialize (Hup (enr_id row) ref).
    destruct (payments_of (enr_id row) ref (payments (store w)))
      as [|p [|p' ps]] eqn:Hps; cbn [fmap list_fmap maybeSingle].
    + rewrite absent_payment. cbn [andb].
      destruct (gt amt zero);
        [rewrite insert_payment_run; world_norm; rewrite Hf3|];
        cbn [fst snd store enrollments]; rewrite Hrows; eauto.
    + rewrite present_payment. cbn [andb fst snd store]. rewrite Hrows. eauto.
    + cbn [length] in Hup. lia.
  - cbn [length] in Hue. lia.
Qed.

Lemma eqb_zero_not_gt (x : number) : eqb x zero = true -> gt x zero = false.
Proof. destruct x as [[]|[]| |[] m e]; cbv; congruence. Qed.

(** C6. For a request that names a user and a course whose price was fetched:
    when the price is positive the answer is the 400 "not a free course"
    response, the only call to the store is the price lookup and the store is
    unchanged, so the reconciler is not run; when the price equals zero the
    handler runs the reconciler with amount [0] and reference
    ['free-enrollment'], answers 200 with the enrollment it returns, and the
    payments table is unchanged; the reconciler does return when the store
    calls succeed on a store that keeps its uniqueness invariants, and the
    pair is then enrolled. *)
Theorem free_enrollment_gate
    (req : free_enrollment_body) (userId courseId : string)
    (coursePrice : number) (w w1 : world) :
  truthy_string (fb_userId req) = Some userId ->
  truthy_string (fb_courseId req) = Some courseId ->
  select_course_price courseId w = (Return (PgData coursePrice), w1) ->
  let r := create_free_enrollment req w in
  let rec := createEnrollmentWithPayment userId courseId zero "free-enrollment" w1 in
  (gt coursePrice zero = true ->
   fst r = Return not_a_free_course /\
   store (snd r) = store w /\
   calls (snd r) = calls w ++ [SelectCourse courseId])
  /\
  (eqb coursePrice zero = true ->
   payments (store (snd r)) = payments (store w) /\
   (forall d : enrollment_data,
      fst rec = Return d -> r = (Return (free_enrollment_created d), snd rec)) /\
   (unique_enrollments (store w) -> unique_payments (store w) -> no_faults w ->
    (exists d : enrollment_data, fst r = Return (free_enrollment_created d)) /\
    enrollments_of userId courseId (enrollments (store (snd r))) <> [])).
Proof.
  intros Hu Hc Hsel r rec.
  assert (Hw1 : store w1 = store w /\ calls w1 = calls w ++ [SelectCourse courseId]
                /\ faults w1 = tail (faults w)).
  { rewrite select_course_price_run in Hsel. injection Hsel as _ <-. auto. }
  destruct Hw1 as (Hst & Hcalls & Hfaults).
  subst r. unfold create_free_enrollment, try_catch, mbind, M_bind, mret, M_ret.
  rewrite Hu, Hc, Hsel. cbn beta iota. split.
  - intros Hgt. rewrite Hgt. cbn. auto.
  - intros Hzero. apply eqb_zero_not_gt in Hzero. rewrite Hzero.
    fold rec.
    assert (Hpay : payments (store (snd rec)) = payments (store w)).
    { destruct (reconcile_effect userId courseId zero "free-enrollment" w1)
        as (_ & _ & [Hp|[Hgt _]] & _); [|discriminate].
      fold rec in Hp. rewrite Hp, Hst. reflexivity. }
    split; [|split].
    + destruct rec as [[d|e] w2]; cbn [fst snd] in *; exact Hpay.
    + intros d Hd. destruct rec as [[d'|e] w2]; cbn [fst snd] in *;
        [injection Hd as ->; reflexivity|discriminate].
    + intros Hue Hup Hok.
      destruct (reconcile_succeeds userId courseId zero "free-enrollment" w1)
        as [[d Hd] Hin].
      * unfold unique_enrollments. rewrite Hst. exact Hue.
      * unfold unique_payments. rewrite Hst. exact Hup.
      * unfold no_faults. rewrite Hfaults. apply Forall_tail, Hok.
      * fold rec in Hd, Hin.
        destruct rec as [[d'|e] w2]; cbn [fst snd] in *; [|discriminate].
        split; [exists d'; reflexivity|exact Hin].
Qed.

(** C7 (as the code has it). For a request that carries all four required
    fields, the handler asks the processor for a session whose single line
    item has the unit amount [Math.round(coursePrice * 100)], the integer
    nearest to the binary64 product with ties going toward +infinity, and
    whose metadata holds exactly [courseId] and [userId]; the answer is built
    from what the processor returns for these parameters.  A price of 49.99
    gives the unit amount 4999. *)
Theorem checkout_unit_amount_and_metadata
    (req : checkout_body) (courseId courseTitle userId : string)
    (coursePrice : number) (w : world) :
  truthy_string (cb_courseId req) = Some courseId ->
  truthy_string (cb_courseTitle req) = Some courseTitle ->
  cb_coursePrice req = Some coursePrice ->
  truthy_string (cb_userId req) = Some userId ->
  let params :=
    checkout_params courseId courseTitle coursePrice userId
      (cb_successUrl req) (cb_cancelUrl req) in
  unit_amount <$> line_items params
    = [Math_round (mul coursePrice (of_Z 100))] /\
  metadata params !! "courseId" = Some courseId /\
  metadata params !! "userId" = Some userId /\
  (forall k : string,
     k <> "courseId" -> k <> "userId" -> metadata params !! k = None) /\
  (forall session : checkout_session,
     checkout_sessions_create params = inr session ->
     fst (create_checkout_session req w) = Return (checkout_created session)) /\
  (forall message : string,
     checkout_sessions_create params = inl message ->
     fst (create_checkout_session req w) = Return checkout_failed) /\
  (coursePrice = of_decimal 4999 2 ->
   unit_amount <$> line_items params = [of_Z 4999]).
Proof.
  intros Hc Ht Hp Hu params.
  split; [reflexivity|]. split; [apply lookup_insert_eq|].
  split; [subst params; cbn [metadata checkout_params];
          rewrite lookup_insert_ne by discriminate; apply lookup_insert_eq|].
  split.
  { intros k Hk1 Hk2. subst params. cbn [metadata checkout_params].
    rewrite !lookup_insert_ne by congruence. apply lookup_empty. }
  unfold create_checkout_session, mbind, M_bind, mret, M_ret, console_log,
    console_error.
  rewrite Hc, Ht, Hp, Hu. fold params.
  split; [|split].
  - intros session ->. reflexivity.
  - intros message ->. reflexivity.
  - intros ->. vm_compute. reflexivity.
Qed.

End RouterRuns.

(** ** Scenarios: the properties at concrete inputs *)

Section Scenarios.
#[local] Existing Instances sequential_ids test_stripe test_env.

(** C1, counterexample. User [u1] is enrolled in [c1], no Payment exists for
    the reference, the amount is 49.99 and both lookups succeed; the Payment
    insert fails.  The helper throws the store's error: it does not return
    the existing Enrollment. *)
Lemma reconcile_existing_payment_failure_is_thrown :
  let w := mkWorld enrolled [false; false; true] [] [] in
  let r := createEnrollmentWithPayment "u1" "c1" (of_decimal 4999 2) "cs_1" w in
  enr_id <$> enrollments_of "u1" "c1" (enrollments (store w)) = [1%N] /\
  payments_of 1%N "cs_1" (payments (store w)) = [] /\
  gt (of_decimal 4999 2) zero = true /\
  fst r = Throw (PostgrestError StoreFault) /\
  fst r <> Return (ExistingEnrollment 1%N).
Proof. vm_compute. repeat split; discriminate. Qed.

Lemma reconcile_throws_when_payment_fails_on_existing_enrollment_witness :
  let w := mkWorld enrolled [false; false; true] [] [] in
  let r := createEnrollmentWithPayment "u1" "c1" (of_decimal 4999 2) "cs_1" w in
  gt (of_decimal 4999 2) zero = true /\
  fst r = Throw (PostgrestError StoreFault) /\
  store (snd r) = store w /\
  calls (snd r) =
    [SelectEnrollment "u1" "c1"; SelectPayment 1%N "cs_1";
     InsertPayment 1%N (of_decimal 4999 2) "stripe" "cs_1" "completed"].
Proof.
  intros w r. split; [reflexivity|].
  destruct (reconcile_throws_when_payment_fails_on_existing_enrollment
              "u1" "c1" (of_decimal 4999 2) "cs_1" w
              (issued (SelectEnrollment "u1" "c1") w)
              (issued (SelectPayment 1%N "cs_1")
                 (issued (SelectEnrollment "u1" "c1") w))
              1%N StoreFault)
    as (Hthrow & Hstore & Hcalls & _); try reflexivity.
  auto.
Defined.


Lemma reconcile_keeps_new_enrollment_when_payment_fails_witness :
  let w := mkWorld catalogue [false; false; true] [] [] in
  let row := mkEnrollment 1%N "u1" "c1" "active" in
  let r := createEnrollmentWithPayment "u1" "c1" (of_decimal 4999 2) "cs_1" w in
  gt (of_decimal 4999 2) zero = true /\
  fst r = Return (NewEnrollment row) /\
  enrollments (store (snd r)) = [row] /\
  payments (store (snd r)) = [] /\
  enrollments_of "u1" "c1" (enrollments (store (snd r))) = [row].
Proof.
  intros w row r. split; [reflexivity|].
  destruct (reconcile_keeps_new_enrollment_when_payment_fails
              "u1" "c1" (of_decimal 4999 2) "cs_1" w
              (issued (SelectEnrollment "u1" "c1") w)
              (snd (insert_enrollment "u1" "c1" "active"
                      (issued (SelectEnrollment "u1" "c1") w)))
              row StoreFault)
    as (Hret & Henr & Hpay & Hof & _); try reflexivity.
  auto.
Defined.

Lemma reconcile_twice_same_reference_witness :
  let d := mkDb [mkEnrollment 1%N "u2" "c1" "active"]
             [mkPayment 1%N 1%N (of_decimal 4999 2) "stripe" "cs_0" "completed"]
             [] in
  let w := mkWorld d [] [] [] in
  let r1 := createEnrollmentWithPayment "u1" "c1" (of_decimal 4999 2) "cs_1" w in
  let r2 :=
    createEnrollmentWithPayment "u1" "c1" (of_decimal 4999 2) "cs_1" (snd r1) in
  enrollments_of "u1" "c1" (enrollments d) = [] /\
  fst r1 = Return (NewEnrollment (mkEnrollment 2%N "u1" "c1" "active")) /\
  fst r2 = Return (ExistingEnrollment 2%N) /\
  length (enrollments_of "u1" "c1" (enrollments (store (snd r2)))) = 1 /\
  length (payments_of 2%N "cs_1" (payments (store (snd r2)))) = 1 /\
  store (snd r2) = store (snd r1).
Proof.
  intros d w r1 r2. split; [reflexivity|].
  destruct (reconcile_twice_same_reference
              "u1" "c1" (of_decimal 4999 2) "cs_1" w)
    as (H1 & H2 & _ & _ & Hone & Hpay & Hsame & _).
  - reflexivity.
  - repeat constructor.
  - reflexivity.
  - constructor.
  - fold r1 in H1, H2, Hone, Hpay, Hsame. fold r2 in H2, Hone, Hpay, Hsame.
    split; [exact H1|]. split; [exact H2|].
    split; [exact (f_equal length Hone)|].
    split; [exact (f_equal length Hpay)|exact Hsame].
Defined.


Lemma at_most_one_enrollment_per_pair_witness :
  let w := mkWorld enrolled [] [] [] in
  let ops :=
    [StripeWebhook (mkWebhookRequest "{}" (Some "t=1,v1=valid"));
     Reconcile "u1" "c1" (of_decimal 4999 2) "cs_2";
     VerifyPayment "cs_test_1";
     CreateFreeEnrollment (mkFreeBody (Some "u1") (Some "c0"));
     Reconcile "u1" "c1" zero "free-enrollment"] in
  enrollments_of "u1" "c1" (enrollments (store w)) <> [] /\
  enrollments_of "u1" "c1" (enrollments (store (perform_all ops w))) =
    [mkEnrollment 1%N "u1" "c1" "active"] /\
  length (payments (store (perform_all
            [Reconcile "u1" "c1" (of_decimal 4999 2) "cs_1";
             Reconcile "u1" "c1" (of_decimal 4999 2) "cs_2"] w))) <= 0 + 2.
Proof.
  intros w ops. split; [discriminate|].
  destruct (at_most_one_enrollment_per_pair ops w) as (Hkeep & _ & Htwo).
  split.
  - rewrite (Hkeep "u1" "c1"); [reflexivity|discriminate].
  - apply (Htwo "u1" "c1" (of_decimal 4999 2) (of_decimal 4999 2) "cs_1" "cs_2").
    discriminate.
Defined.

Lemma reconcile_failures_propagate_witness :
  let amt := of_decimal 4999 2 in
  let w1 := mkWorld catalogue [true] [] [] in
  let w2 := mkWorld enrolled [false; true] [] [] in
  let w3 := mkWorld catalogue [false; true] [] [] in
  fst (createEnrollmentWithPayment "u1" "c1" amt "cs_1" w1)
    = Throw (PostgrestError StoreFault) /\
  fst (createEnrollmentWithPayment "u1" "c1" amt "cs_1" w2)
    = Throw (PostgrestError StoreFault) /\
  (fst (createEnrollmentWithPayment "u1" "c1" amt "cs_1" w3)
     = Throw (PostgrestError StoreFault) /\
   store (snd (createEnrollmentWithPayment "u1" "c1" amt "cs_1" w3)) = catalogue /\
   calls (snd (createEnrollmentWithPayment "u1" "c1" amt "cs_1" w3)) =
     [SelectEnrollment "u1" "c1"; InsertEnrollment "u1" "c1" "active"]).
Proof.
  intros amt w1 w2 w3. split; [|split].
  - apply (reconcile_failures_propagate "u1" "c1" amt "cs_1" w1 StoreFault).
    reflexivity.
  - apply (proj1 (proj2 (reconcile_failures_propagate
                           "u1" "c1" amt "cs_1" w2 StoreFault))
             1%N (issued (SelectEnrollment "u1" "c1") w2));
      reflexivity.
  - apply (proj2 (proj2 (reconcile_failures_propagate
                           "u1" "c1" amt "cs_1" w3 StoreFault))
             (issued (SelectEnrollment "u1" "c1") w3));
      reflexivity.
Defined.

Lemma free_enrollment_gate_witness :
  let w := mkWorld catalogue [] [] [] in
  let paid := create_free_enrollment (mkFreeBody (Some "u1") (Some "c1")) w in
  let free := create_free_enrollment (mkFreeBody (Some "u1") (Some "c0")) w in
  (fst paid = Return not_a_free_course /\ store (snd paid) = catalogue) /\
  (payments (store (snd free)) = [] /\
   (exists d : enrollment_data, fst free = Return (free_enrollment_created d)) /\
   enrollments_of "u1" "c0" (enrollments (store (snd free))) <> []).
Proof.
  intros w paid free. split.
  - destruct (free_enrollment_gate (mkFreeBody (Some "u1") (Some "c1"))
                "u1" "c1" (of_decimal 4999 2) w (issued (SelectCourse "c1") w))
      as [Hgate _]; try reflexivity.
    destruct Hgate as (Hres & Hst & _); [reflexivity|]. auto.
  - destruct (free_enrollment_gate (mkFreeBody (Some "u1") (Some "c0"))
                "u1" "c0" zero w (issued (SelectCourse "c0") w))
      as [_ Hfree]; try reflexivity.
    destruct Hfree as (Hpay & _ & Hok); [reflexivity|].
    split; [exact Hpay|]. apply Hok.
    + intros u c. simpl. lia.
    + intros eid ref. simpl. lia.
    + constructor.
Defined.

(** C7, counterexample. A price of 0.125 is an exact double and 0.125 * 100
    is exactly 12.5: the handler sends the unit amount 13, where rounding
    half to even gives 12.  The amount is fixed before the processor sees
    the request. *)
Lemma checkout_rounding_is_not_half_even :
  let coursePrice := of_decimal 125 3 in
  let params := checkout_params "c1" "Course" coursePrice "u1" None None in
  mul coursePrice (of_Z 100) = of_decimal 125 1 /\
  unit_amount <$> line_items params = [of_Z 13] /\
  round_half_even (mul coursePrice (of_Z 100)) = of_Z 12 /\
  unit_amount <$> line_items params
    <> [round_half_even (mul coursePrice (of_Z 100))].
Proof. vm_compute. repeat split; discriminate. Qed.

Lemma checkout_unit_amount_and_metadata_witness :
  let req :=
    mkCheckoutBody (Some "c1") (Some "Course") (Some (of_decimal 4999 2))
      (Some "u1") None None in
  let params :=
    checkout_params "c1" "Course" (of_decimal 4999 2) "u1" None None in
  unit_amount <$> line_items params = [of_Z 4999] /\
  metadata params !! "courseId" = Some "c1" /\
  metadata params !! "userId" = Some "u1" /\
  exists session : checkout_session,
    checkout_sessions_create params = inr session /\
    fst (create_checkout_session req (mkWorld catalogue [] [] []))
      = Return (checkout_created session).
Proof.
  intros req params.
  destruct (checkout_unit_amount_and_metadata req "c1" "Course" "u1"
              (of_decimal 4999 2) (mkWorld catalogue [] [] []))
    as (_ & Hc & Hu & _ & Hres & _ & Hcents); try reflexivity.
  split; [apply Hcents; reflexivity|]. split; [exact Hc|]. split; [exact Hu|].
  eexists. split; [reflexivity|]. apply Hres. reflexivity.
Defined.

Lemma webhook_rejects_unverified_payload_witness :
  let w := mkWorld catalogue [] [] [] in
  let unsigned := stripe_webhook (mkWebhookRequest "{}" None) w in
  let forged := stripe_webhook (mkWebhookRequest "{}" (Some "t=1,v1=forged")) w in
  ((exists text : string, fst unsigned = Return (mkResponse 400 (Text text))) /\
   snd unsigned = w) /\
  ((exists text : string, fst forged = Return (mkResponse 400 (Text text))) /\
   store (snd forged) = catalogue /\ calls (snd forged) = []).
Proof.
  intros w unsigned forged. split.
  - destruct (webhook_rejects_unverified_payload
                (mkWebhookRequest "{}" None) w) as (Hres & _ & _).
    + left. reflexivity.
    + split; [exact Hres|reflexivity].
  - destruct (webhook_rejects_unverified_payload
                (mkWebhookRequest "{}" (Some "t=1,v1=forged")) w)
      as (Hres & Hst & Hcalls).
    + right. eexists _, _. split; reflexivity.
    + auto.
Defined.

Lemma webhook_acknowledges_verified_delivery_witness :
  let req := mkWebhookRequest "{}" (Some "t=1,v1=valid") in
  let ok := stripe_webhook req (mkWorld catalogue [] [] []) in
  let broken := stripe_webhook req (mkWorld catalogue [true] [] []) in
  (fst ok = Return received /\
   enrollments (store (snd ok)) = [mkEnrollment 1%N "u1" "c1" "active"] /\
   amount <$> payments (store (snd ok)) = [of_decimal 4999 2]) /\
  (fst broken = Return received /\
   store (snd broken) = catalogue /\
   last (console (snd broken)) =
     Some (LogError "Error processing enrollment:"
             [ArgError (PostgrestError StoreFault)])).
Proof.
  intros req ok broken. split.
  - destruct (webhook_acknowledges_verified_delivery req
                (mkWorld catalogue [] [] []) "t=1,v1=valid"
                (mkEvent "checkout.session.completed"
                   (paid_session "cs_test_1" "c1" "u1" 4999)))
      as [Hres _]; try reflexivity.
    split; [exact Hres|]. split; reflexivity.
  - destruct (webhook_acknowledges_verified_delivery req
                (mkWorld catalogue [true] [] []) "t=1,v1=valid"
                (mkEvent "checkout.session.completed"
                   (paid_session "cs_test_1" "c1" "u1" 4999)))
      as [Hres Hcaught]; try reflexivity.
    split; [exact Hres|].
    fold broken in Hcaught.
    rewrite (Hcaught "c1" "u1" (PostgrestError StoreFault)
               (snd (createEnrollmentWithPayment "u1" "c1"
                       (of_decimal 4999 2) "cs_test_1"
                       (mkWorld catalogue [true] [] []))));
      try reflexivity.
    split; reflexivity.
Defined.

Lemma reconcile_non_positive_amount_writes_no_payment_witness :
  let existing :=
    createEnrollmentWithPayment "u1" "c1" zero "free-enrollment"
      (mkWorld enrolled [] [] []) in
  let fresh :=
    createEnrollmentWithPayment "u1" "c1" (of_Z (-5)) "cs_1"
      (mkWorld catalogue [] [] []) in
  le zero zero = true /\ le (of_Z (-5)) zero = true /\
  (payments (store (snd existing)) = [] /\
   fst existing = Return (ExistingEnrollment 1%N) /\
   calls (snd existing) =
     [SelectEnrollment "u1" "c1"; SelectPayment 1%N "free-enrollment"]) /\
  (payments (store (snd fresh)) = [] /\
   calls (snd fresh) =
     [SelectEnrollment "u1" "c1"; InsertEnrollment "u1" "c1" "active"]).
Proof.
  intros existing fresh. split; [reflexivity|]. split; [reflexivity|]. split.
  - destruct (reconcile_non_positive_amount_writes_no_payment
                "u1" "c1" zero "free-enrollment" (mkWorld enrolled [] [] []))
      as [Hle _].
    destruct Hle as (Hpay & _ & Hbranch); [reflexivity|].
    fold existing in Hpay, Hbranch. split; [exact Hpay|].
    apply (Hbranch 1%N (issued (SelectEnrollment "u1" "c1")
                          (mkWorld enrolled [] [] []))); reflexivity.
  - destruct (reconcile_non_positive_amount_writes_no_payment
                "u1" "c1" (of_Z (-5)) "cs_1" (mkWorld catalogue [] [] []))
      as [Hle Hnew].
    destruct Hle as (Hpay & _ & _); [reflexivity|].
    fold fresh in Hpay, Hnew. split; [exact Hpay|].
    apply (Hnew (issued (SelectEnrollment "u1" "c1")
                   (mkWorld catalogue [] [] []))
             (snd (insert_enrollment "u1" "c1" "active"
                     (issued (SelectEnrollment "u1" "c1")
                        (mkWorld catalogue [] [] []))))
             (mkEnrollment 1%N "u1" "c1" "active")); reflexivity.
Defined.

End Scenarios.

(** * Further properties of the code *)

(** ** All the outcomes of one call of the reconciler *)

Lemma fmap_one_inv {A B : Type} (f : A -> B) (l : list A) (b : B) :
  f <$> l = [b] -> exists a : A, l = [a] /\ f a = b.
Proof.
  destruct l as [|a [|a' l]]; cbn; intros Heq; try discriminate.
  injection Heq as Heq. eauto.
Qed.

(** The paths of the reconciler, one goal per path. *)
Ltac reconciler_cases :=
  unfold_reconciler;
  repeat (first
    [ rewrite select_payment_run
    | rewrite insert_enrollment_run
    | rewrite insert_payment_run
    | rewrite absent_payment
    | rewrite present_payment
    | match goal with
      | |- context [if fails ?w then _ else _] => destruct (fails w) eqn:?
      | |- context [maybeSingle ?l] =>
          destruct l as [|? [|? ?]] eqn:?; cbn [maybeSingle]
      | |- context [if gt ?a zero then _ else _] => destruct (gt a zero) eqn:?
      end ];
    cbn [andb]; cbn beta iota).

Section ReconcilerOutcomes.
Context `{StoreIds}.

(** Every run of the reconciler ends in one of five ways: it throws and the
    store is as before; it returns the Enrollment it found and writes
    nothing; it returns the Enrollment it found and appends one Payment for
    the reference; it returns a new Enrollment and appends that row only; or
    it returns a new Enrollment and appends the row and one Payment. *)
Lemma reconcile_outcomes (u c : string) (amt : number) (ref : string)
    (w : world) :
  let r := createEnrollmentWithPayment u c amt ref w in
  let row := inserted_enrollment u c "active" w in
  (exists e : store_error,
     fst r = Throw (PostgrestError e) /\ store (snd r) = store w)
  \/
  (exists old : enrollment,
     enrollments_of u c (enrollments (store w)) = [old] /\
     fst r = Return (ExistingEnrollment (enr_id old)) /\
     store (snd r) = store w /\
     (gt amt zero = false \/
      payments_of (enr_id old) ref (payments (store w)) <> []))
  \/
  (exists old : enrollment,
     enrollments_of u c (enrollments (store w)) = [old] /\
     fst r = Return (ExistingEnrollment (enr_id old)) /\
     gt amt zero = true /\
     payments_of (enr_id old) ref (payments (store w)) = [] /\
     store (snd r) =
       mkDb (enrollments (store w))
         (payments (store w) ++
          [inserted_payment (enr_id old) amt "stripe" ref "completed" w])
         (courses (store w)))
  \/
  (enrollments_of u c (enrollments (store w)) = [] /\
   fst r = Return (NewEnrollment row) /\
   store (snd r) =
     mkDb (enrollments (store w) ++ [row]) (payments (store w))
       (courses (store w)))
  \/
  (enrollments_of u c (enrollments (store w)) = [] /\
   fst r = Return (NewEnrollment row) /\
   gt amt zero = true /\
   store (snd r) =
     mkDb (enrollments (store w) ++ [row])
       (payments (store w) ++
        [inserted_payment (enr_id row) amt "stripe" ref "completed" w])
       (courses (store w))).
Proof.
  intros r row. subst r row.
  destruct (createEnrollmentWithPayment u c amt ref w) as [o w'] eqn:Hrun.
  cbn [fst snd]. revert Hrun. reconciler_cases.
  all: intros [= <- <-]; world_norm.
  all: repeat match goal with
       | Hl : _ <$> _ = [] |- _ => apply fmap_nil_inv in Hl
       | Hl : _ <$> _ = [_] |- _ =>
           apply fmap_one_inv in Hl as (? & Hl & <-)
       end.
  all: first
    [ solve [left; eexists; split; reflexivity]
    | solve [right; left; eexists; split; [eassumption|];
             split; [reflexivity|]; split; [reflexivity|];
             first [left; reflexivity | right; congruence]]
    | solve [do 2 right; left; eexists; split; [eassumption|];
             split; [reflexivity|]; split; [reflexivity|];
             split; [assumption|reflexivity]]
    | solve [do 3 right; left; split; [assumption|]; split; reflexivity]
    | solve [do 4 right; split; [assumption|]; split; [reflexivity|];
             split; reflexivity]
    ].
Qed.


Lemma reconcile_returned_row (u c : string) (amt : number) (ref : string)
    (w w' : world) (d : enrollment_data) :
  createEnrollmentWithPayment u c amt ref w = (Return d, w') ->
  exists row : enrollment,
    enrollments_of u c (enrollments (store w')) = [row] /\
    enr_id row = enrollment_data_id d.
Proof.
  intros Hrun.
  destruct (reconcile_outcomes u c amt ref w)
    as [(e' & Hthrow & _)|[(old & Hold & Hr & Hst & _)
       |[(old & Hold & Hr & _ & _ & Hst)
       |[(Hnone & Hr & Hst)|(Hnone & Hr & _ & Hst)]]]];
    rewrite Hrun in *; cbn [fst snd] in *; try discriminate;
    injection Hr as ->; rewrite Hst; cbn [enrollments].
  - exists old. auto.
  - exists old. auto.
  - exists (inserted_enrollment u c "active" w). unfold inserted_enrollment.
    rewrite enrollments_of_snoc, Hnone. auto.
  - exists (inserted_enrollment u c "active" w). unfold inserted_enrollment.
    rewrite enrollments_of_snoc, Hnone. auto.
Qed.

(** X1. When the reconciler throws, whatever the cause, it has written
    nothing: the store is the one it was called with. *)
Theorem reconcile_throw_leaves_store_unchanged
    (u c : string) (amt : number) (ref : string) (w : world) (e : js_error) :
  fst (createEnrollmentWithPayment u c amt ref w) = Throw e ->
  store (snd (createEnrollmentWithPayment u c amt ref w)) = store w.
Proof.
  intros Hthrow.
  destruct (reconcile_outcomes u c amt ref w)
    as [(e' & _ & Hst)|[(old & _ & Hret & _)|[(old & _ & Hret & _)
       |[(_ & Hret & _)|(_ & Hret & _)]]]];
    [exact Hst|rewrite Hret in Hthrow; discriminate..].
Qed.

(** X2. When the reconciler returns, the pair has exactly one Enrollment in
    the store and it is the one returned, whatever the store held before and
    whatever calls failed; a row the reconciler created has status
    [active]. *)
Theorem reconcile_returns_the_enrollment_of_the_pair
    (u c : string) (amt : number) (ref : string) (w : world)
    (d : enrollment_data) :
  fst (createEnrollmentWithPayment u c amt ref w) = Return d ->
  exists row : enrollment,
    enrollments_of u c
      (enrollments (store (snd (createEnrollmentWithPayment u c amt ref w))))
      = [row] /\
    enr_id row = enrollment_data_id d /\
    (forall new : enrollment,
       d = NewEnrollment new ->
       new = row /\ enr_status row = "active" /\
       enrollments_of u c (enrollments (store w)) = []).
Proof.
  intros Hret.
  destruct (reconcile_outcomes u c amt ref w)
    as [(e' & Hthrow & _)|[(old & Hold & Hr & Hst & _)
       |[(old & Hold & Hr & _ & _ & Hst)
       |[(Hnone & Hr & Hst)|(Hnone & Hr & _ & Hst)]]]];
    rewrite Hret in *; try discriminate; injection Hr as ->; rewrite Hst;
    cbn [enrollments].
  - exists old. split; [exact Hold|]. split; [reflexivity|]. discriminate.
  - exists old. split; [exact Hold|]. split; [reflexivity|]. discriminate.
  - exists (inserted_enrollment u c "active" w). unfold inserted_enrollment.
    rewrite enrollments_of_snoc, Hnone. split; [reflexivity|].
    split; [reflexivity|]. intros new [= <-]. auto.
  - exists (inserted_enrollment u c "active" w). unfold inserted_enrollment.
    rewrite enrollments_of_snoc, Hnone. split; [reflexivity|].
    split; [reflexivity|]. intros new [= <-]. auto.
Qed.

(** X3. The reconciler writes a Payment only when it returns and the amount
    is positive; the Payment it writes carries the identifier of the
    Enrollment it returns, the amount and the reference it was given, the
    method [stripe] and the status [completed], and no Payment existed for
    that Enrollment and reference when the Enrollment was already there. *)
Theorem reconcile_payment_written
    (u c : string) (amt : number) (ref : string) (w : world) :
  let r := createEnrollmentWithPayment u c amt ref w in
  payments (store (snd r)) = payments (store w) \/
  exists (d : enrollment_data) (pid : id),
    fst r = Return d /\
    gt amt zero = true /\
    payments (store (snd r)) =
      payments (store w) ++
      [mkPayment pid (enrollment_data_id d) amt "stripe" ref "completed"] /\
    (forall eid : id,
       d = ExistingEnrollment eid ->
       payments_of eid ref (payments (store w)) = []).
Proof.
  intros r. subst r.
  destruct (reconcile_outcomes u c amt ref w)
    as [(e' & _ & Hst)|[(old & _ & _ & Hst & _)
       |[(old & _ & Hr & Hgt & Hnone & Hst)
       |[(_ & _ & Hst)|(_ & Hr & Hgt & Hst)]]]];
    rewrite Hst; cbn [payments]; try (left; reflexivity); right.
  - exists (ExistingEnrollment (enr_id old)), (new_payment_id (payments (store w))).
    split; [exact Hr|]. split; [exact Hgt|]. split; [reflexivity|].
    intros eid [= <-]. exact Hnone.
  - exists (NewEnrollment (inserted_enrollment u c "active" w)),
      (new_payment_id (payments (store w))).
    split; [exact Hr|]. split; [exact Hgt|]. split; [reflexivity|].
    discriminate.
Qed.

End ReconcilerOutcomes.

(** ** The calls one run of the reconciler makes *)

Section ReconcilerCalls.
Context `{StoreIds}.

(** X4. One run of the reconciler makes one of five sequences of calls to
    the store: the Enrollment lookup alone; the lookup and the Payment
    lookup; these two and a Payment insert; the lookup and the Enrollment
    insert; or these two and a Payment insert.  So it makes at most three
    calls, at most one insert into each table, never a Payment insert before
    the Enrollment is known, and it consumes one entry of the fault plan per
    call. *)
Theorem reconcile_calls
    (u c : string) (amt : number) (ref : string) (w : world) :
  let w' := snd (createEnrollmentWithPayment u c amt ref w) in
  exists cs : list store_call,
    calls w' = calls w ++ SelectEnrollment u c :: cs /\
    faults w' = drop (S (length cs)) (faults w) /\
    (cs = [] \/
     cs = [InsertEnrollment u c "active"] \/
     exists eid : id,
       cs = [SelectPayment eid ref] \/
       cs = [SelectPayment eid ref;
             InsertPayment eid amt "stripe" ref "completed"] \/
       cs = [InsertEnrollment u c "active";
             InsertPayment eid amt "stripe" ref "completed"]).
Proof.
  intros w'. subst w'.
  destruct (createEnrollmentWithPayment u c amt ref w) as [o w'] eqn:Hrun.
  cbn [snd]. revert Hrun. reconciler_cases.
  all: intros [= <- <-]; world_norm; rewrite <- ?app_assoc.
  all: eexists; split; [reflexivity|].
  all: split; [destruct (faults w) as [|? [|? [|? ?]]]; reflexivity|].
  all: first [ left; reflexivity
             | right; left; reflexivity
             | right; right; eexists; left; reflexivity
             | right; right; eexists; right; left; reflexivity
             | right; right; eexists; right; right; reflexivity ].
Qed.

(** The fault plan stays free of faults. *)
Lemma reconcile_no_faults (u c : string) (amt : number) (ref : string)
    (w : world) :
  no_faults w -> no_faults (snd (createEnrollmentWithPayment u c amt ref w)).
Proof.
  intros Hok. unfold no_faults in *.
  destruct (createEnrollmentWithPayment u c amt ref w) as [o w'] eqn:Hrun.
  cbn [snd]. revert Hrun. reconciler_cases.
  all: intros [= <- <-]; world_norm; repeat apply Forall_tail; exact Hok.
Qed.

(** With store calls that succeed and no Enrollment for the pair, the run
    appends the Enrollment and, for a positive amount, the Payment. *)
Lemma reconcile_run_new (u c : string) (amt : number) (ref : string)
    (w : world) :
  enrollments_of u c (enrollments (store w)) = [] ->
  no_faults w ->
  let r := createEnrollmentWithPayment u c amt ref w in
  let row := inserted_enrollment u c "active" w in
  fst r = Return (NewEnrollment row) /\
  enrollments (store (snd r)) = enrollments (store w) ++ [row] /\
  payments (store (snd r)) =
    payments (store w) ++
    (if gt amt zero
     then [inserted_payment (enr_id row) amt "stripe" ref "completed" w]
     else []) /\
  courses (store (snd r)) = courses (store w).
Proof.
  intros Hnone Hok r row. subst r row. unfold no_faults in Hok.
  apply no_faults_tail in Hok as [Hf1 Hok].
  apply no_faults_tail in Hok as [Hf2 Hok].
  apply no_faults_tail in Hok as [Hf3 _].
  unfold_reconciler. world_norm. rewrite Hf1, Hnone.
  cbn [fmap list_fmap maybeSingle].
  rewrite insert_enrollment_run. world_norm. rewrite Hf2.
  destruct (gt amt zero).
  - rewrite insert_payment_run. world_norm. rewrite Hf3. cbn. auto.
  - cbn. rewrite app_nil_r. auto.
Qed.

(** With store calls that succeed and one Enrollment for the pair, the run
    returns it and appends a Payment exactly when the amount is positive and
    the reference has none. *)
Lemma reconcile_run_existing (u c : string) (amt : number) (ref : string)
    (w : world) (old : enrollment) :
  enrollments_of u c (enrollments (store w)) = [old] ->
  length (payments_of (enr_id old) ref (payments (store w))) <= 1 ->
  no_faults w ->
  let r := createEnrollmentWithPayment u c amt ref w in
  fst r = Return (ExistingEnrollment (enr_id old)) /\
  enrollments (store (snd r)) = enrollments (store w) /\
  payments (store (snd r)) =
    payments (store w) ++
    (match payments_of (enr_id old) ref (payments (store w)) with
     | [] =>
         if gt amt zero
         then [inserted_payment (enr_id old) amt "stripe" ref "completed" w]
         else []
     | _ => []
     end) /\
  courses (store (snd r)) = courses (store w).
Proof.
  intros Hold Hlen Hok r. subst r. unfold no_faults in Hok.
  apply no_faults_tail in Hok as [Hf1 Hok].
  apply no_faults_tail in Hok as [Hf2 Hok].
  apply no_faults_tail in Hok as [Hf3 _].
  unfold_reconciler. world_norm. rewrite Hf1, Hold.
  cbn [fmap list_fmap maybeSingle].
  rewrite select_payment_run. world_norm. rewrite Hf2.
  destruct (payments_of (enr_id old) ref (payments (store w)))
    as [|p [|p' ps]]; cbn [fmap list_fmap maybeSingle].
  - rewrite absent_payment. cbn [andb]. destruct (gt amt zero).
    + rewrite insert_payment_run. world_norm. rewrite Hf3. cbn. auto.
    + cbn. rewrite app_nil_r. destruct (store w); auto.
  - rewrite present_payment. cbn. rewrite app_nil_r. destruct (store w); auto.
  - cbn [length] in Hlen. lia.
Qed.

End ReconcilerCalls.

(** ** Edge cases and compositions of the reconciler *)

Section ReconcilerCompositions.
Context `{StoreIds}.

(** X5. A store that already breaks uniqueness blocks the reconciler: with
    two or more Enrollments for the pair the lookup answers with [PGRST116]
    and the run throws it after that one call; with one Enrollment and two or
    more Payments for the reference the Payment lookup does.  Nothing is
    written in either case. *)
Theorem reconcile_duplicates_throw
    (u c : string) (amt : number) (ref : string) (w : world) :
  let r := createEnrollmentWithPayment u c amt ref w in
  (2 <= length (enrollments_of u c (enrollments (store w))) ->
   fails w = false ->
   fst r = Throw (PostgrestError PGRST116) /\
   store (snd r) = store w /\
   calls (snd r) = calls w ++ [SelectEnrollment u c])
  /\
  (forall old : enrollment,
     enrollments_of u c (enrollments (store w)) = [old] ->
     2 <= length (payments_of (enr_id old) ref (payments (store w))) ->
     fails w = false ->
     fails (issued (SelectEnrollment u c) w) = false ->
     fst r = Throw (PostgrestError PGRST116) /\
     store (snd r) = store w /\
     calls (snd r) =
       calls w ++ [SelectEnrollment u c; SelectPayment (enr_id old) ref]).
Proof.
  intros r. subst r. split.
  - intros Hlen Hf. unfold_reconciler. rewrite Hf.
    destruct (enrollments_of u c (enrollments (store w))) as [|a [|b l]];
      cbn [length] in Hlen; try lia.
    cbn. auto.
  - intros old Hold Hlen Hf1 Hf2. unfold_reconciler. rewrite Hf1, Hold.
    cbn [fmap list_fmap maybeSingle]. rewrite select_payment_run.
    autorewrite with world. rewrite Hf2.
    destruct (payments_of (enr_id old) ref (payments (store w)))
      as [|a [|b l]]; cbn [length] in Hlen; try lia.
    cbn. rewrite <- app_assoc. auto.
Qed.

(** X6. A retry repairs a missing Payment record.  When the first call creates
    the Enrollment and its Payment insert fails, a second call with the same
    arguments, with store calls that succeed, returns that Enrollment and
    appends the Payment for it; the Enrollment is not created again. *)
Theorem reconcile_retry_writes_missing_payment
    (u c : string) (amt : number) (ref : string) (w : world) (fs : list bool) :
  enrollments_of u c (enrollments (store w)) = [] ->
  payments_reference_enrollments (store w) ->
  gt amt zero = true ->
  faults w = false :: false :: true :: fs ->
  Forall (fun failed : bool => failed = false) fs ->
  let r1 := createEnrollmentWithPayment u c amt ref w in
  let r2 := createEnrollmentWithPayment u c amt ref (snd r1) in
  let row := inserted_enrollment u c "active" w in
  fst r1 = Return (NewEnrollment row) /\
  payments (store (snd r1)) = payments (store w) /\
  fst r2 = Return (ExistingEnrollment (enr_id row)) /\
  enrollments (store (snd r2)) = enrollments (store w) ++ [row] /\
  payments (store (snd r2)) =
    payments (store w) ++
    [inserted_payment (enr_id row) amt "stripe" ref "completed" w].
Proof.
  intros Hnone Hfk Hgt Hfaults Hok r1 r2 row.
  assert (Hf1 : default false (head (faults w)) = false)
    by (rewrite Hfaults; reflexivity).
  assert (Hf2 : default false (head (tail (faults w))) = false)
    by (rewrite Hfaults; reflexivity).
  assert (Hf3 : default false (head (tail (tail (faults w)))) = true)
    by (rewrite Hfaults; reflexivity).
  assert (Hr1 : r1 =
    (Return (NewEnrollment row),
     mkWorld
       (mkDb (enrollments (store w) ++ [row]) (payments (store w))
          (courses (store w)))
       (tail (tail (tail (faults w))))
       (calls w ++ [SelectEnrollment u c; InsertEnrollment u c "active";
                    InsertPayment (enr_id row) amt "stripe" ref "completed"])
       (console w ++
        [LogInfo ("Creating enrollment for user " +:+ u +:+ " in course " +:+ c);
         LogError "Error creating payment record:"
           [ArgError (PostgrestError StoreFault)]]))).
  { subst r1 row. unfold_reconciler. world_norm.
    rewrite Hf1, Hnone. cbn [fmap list_fmap maybeSingle].
    rewrite insert_enrollment_run. world_norm. rewrite Hf2, Hgt.
    rewrite insert_payment_run. world_norm. rewrite Hf3.
    world_norm. rewrite <- !app_assoc. reflexivity. }
  assert (Hrow : enrollments_of u c (enrollments (store w) ++ [row]) = [row]).
  { subst row. unfold inserted_enrollment.
    rewrite enrollments_of_snoc, Hnone. reflexivity. }
  assert (Hpay : payments_of (enr_id row) ref (payments (store w)) = []).
  { subst row. unfold inserted_enrollment. cbn [enr_id].
    apply payments_of_fresh_enrollment, Hfk. }
  destruct (reconcile_run_existing u c amt ref (snd r1) row)
    as (Hret & Henr & Hpays & _).
  - rewrite Hr1. exact Hrow.
  - rewrite Hr1. cbn [snd store payments]. rewrite Hpay. cbn. lia.
  - rewrite Hr1. unfold no_faults. cbn [snd faults]. rewrite Hfaults. exact Hok.
  - fold r2 in Hret, Henr, Hpays. rewrite Hr1 in Henr, Hpays |- *.
    cbn [fst snd store enrollments payments] in *.
    rewrite Hpay, Hgt in Hpays. auto.
Qed.

(** X7. Two calls for one pair with two different references and positive
    amounts, against a store with no Enrollment for the pair and with store
    calls that succeed, leave exactly one Enrollment for the pair and exactly
    two new Payments, one per reference, both for that Enrollment. *)
Theorem reconcile_twice_distinct_references
    (u c : string) (a1 a2 : number) (ref1 ref2 : string) (w : world) :
  ref1 <> ref2 ->
  enrollments_of u c (enrollments (store w)) = [] ->
  payments_reference_enrollments (store w) ->
  gt a1 zero = true ->
  gt a2 zero = true ->
  no_faults w ->
  let r1 := createEnrollmentWithPayment u c a1 ref1 w in
  let r2 := createEnrollmentWithPayment u c a2 ref2 (snd r1) in
  let row := inserted_enrollment u c "active" w in
  fst r1 = Return (NewEnrollment row) /\
  fst r2 = Return (ExistingEnrollment (enr_id row)) /\
  enrollments_of u c (enrollments (store (snd r2))) = [row] /\
  exists p1 p2 : payment,
    payments (store (snd r2)) = payments (store w) ++ [p1; p2] /\
    payments_of (enr_id row) ref1 (payments (store (snd r2))) = [p1] /\
    payments_of (enr_id row) ref2 (payments (store (snd r2))) = [p2] /\
    amount p1 = a1 /\ amount p2 = a2.
Proof.
  intros Hne Hnone Hfk Hg1 Hg2 Hok r1 r2 row.
  destruct (reconcile_run_new u c a1 ref1 w Hnone Hok)
    as (Hret1 & Henr1 & Hpay1 & _).
  fold r1 row in Hret1, Henr1, Hpay1. rewrite Hg1 in Hpay1.
  set (p1 := inserted_payment (enr_id row) a1 "stripe" ref1 "completed" w) in *.
  assert (Hrow : enrollments_of u c (enrollments (store (snd r1))) = [row]).
  { rewrite Henr1. subst row. unfold inserted_enrollment.
    rewrite enrollments_of_snoc, Hnone. reflexivity. }
  assert (Hfresh : forall ref : string,
             payments_of (enr_id row) ref (payments (store w)) = []).
  { intros ref. subst row. unfold inserted_enrollment. cbn [enr_id].
    apply payments_of_fresh_enrollment, Hfk. }
  assert (Hp1other : payments_of (enr_id row) ref2 [p1] = []).
  { unfold payments_of. rewrite (filter_cons_False _ p1); [reflexivity|].
    cbn. intros [_ Heq]. apply Hne. exact Heq. }
  assert (Hnone2 : payments_of (enr_id row) ref2 (payments (store (snd r1))) = []).
  { rewrite Hpay1. unfold payments_of in *. rewrite filter_app.
    rewrite (Hfresh ref2), Hp1other. reflexivity. }
  destruct (reconcile_run_existing u c a2 ref2 (snd r1) row Hrow)
    as (Hret2 & Henr2 & Hpay2 & _).
  { rewrite Hnone2. cbn. lia. }
  { apply reconcile_no_faults, Hok. }
  fold r2 in Hret2, Henr2, Hpay2. rewrite Hnone2, Hg2 in Hpay2.
  set (p2 := inserted_payment (enr_id row) a2 "stripe" ref2 "completed" (snd r1))
    in *.
  split; [exact Hret1|]. split; [exact Hret2|].
  split; [rewrite Henr2; exact Hrow|].
  exists p1, p2. rewrite Hpay2, Hpay1, <- app_assoc.
  split; [reflexivity|].
  unfold payments_of in *. rewrite !filter_app, !Hfresh.
  split; [|split; [|split; reflexivity]].
  - cbn [app]. rewrite (filter_cons_True _ p1) by (cbn; auto).
    rewrite (filter_cons_False _ p2); [reflexivity|].
    cbn. intros [_ Heq]. apply Hne. symmetry. exact Heq.
  - cbn [app]. rewrite (filter_cons_False _ p1).
    + rewrite (filter_cons_True _ p2) by (cbn; auto). reflexivity.
    + cbn. intros [_ Heq]. apply Hne. exact Heq.
Qed.

End ReconcilerCompositions.

(** ** The endpoints *)

Ltac unfold_handler :=
  unfold route, create_checkout_session, stripe_webhook, verify_payment,
    create_free_enrollment, mbind, M_bind, mret, M_ret, console_log,
    console_error, try_catch, throw.

Section Endpoints.
Context `{StoreIds} `{Stripe} `{Env}.

Lemma reconcile_throw_store (u c : string) (amt : number) (ref : string)
    (w w' : world) (e : js_error) :
  createEnrollmentWithPayment u c amt ref w = (Throw e, w') ->
  store w' = store w.
Proof.
  intros Hrun.
  destruct (reconcile_outcomes u c amt ref w)
    as [(e' & _ & Hst)|[(old & _ & Hret & _)|[(old & _ & Hret & _)
       |[(_ & Hret & _)|(_ & Hret & _)]]]];
    rewrite Hrun in *; cbn [fst snd] in *; [exact Hst|discriminate..].
Qed.

(** X8. Every endpoint answers: no exception leaves a handler, the status is
    200, 400 or 500, and an answer other than 200 means that nothing was
    written to the store. *)
Theorem endpoints_answer_and_failures_write_nothing (r : request) (w : world) :
  exists resp : response,
    fst (route r w) = Return resp /\
    (status resp = 200 \/ status resp = 400 \/ status resp = 500) /\
    (status resp <> 200 -> store (snd (route r w)) = store w).
Proof.
  destruct r as [req|req|sessionId|req]; unfold_handler.
  - repeat case_match; simplify_eq; cbn [fst snd]; eexists;
      (split; [reflexivity|]); cbn [status]; auto.
  - repeat case_match; simplify_eq; cbn [fst snd]; eexists;
      (split; [reflexivity|]); cbn [status received]; split; auto;
      intros Hne; try reflexivity; contradiction.
  - repeat case_match; simplify_eq; cbn [fst snd]; eexists;
      (split; [reflexivity|]); cbn [status]; split; auto;
      intros Hne; try reflexivity; try contradiction;
      autorewrite with world; eapply reconcile_throw_store; eassumption.
  - repeat case_match; simplify_eq; cbn [fst snd]; eexists;
      (split; [reflexivity|]);
      cbn [status not_a_free_course free_enrollment_created]; split; auto;
      intros Hne; try reflexivity; try contradiction;
      autorewrite with world;
      repeat match goal with
      | Hsel : select_course_price _ _ = _ |- _ =>
          apply select_course_price_store in Hsel
      end;
      try congruence;
      match goal with
      | Hst : store ?w1 = store w |- _ =>
          rewrite <- Hst; eapply reconcile_throw_store; eassumption
      end.
Qed.

(** X9. GET /api/verify-payment for a session that is not paid answers 200
    with [success: false] and the status observed, and leaves the world as it
    was: no call to the store, nothing on the console.  When the processor
    cannot return the session the answer is the 500 "Failed to verify
    payment", again without any call to the store; the processor's message
    goes to the console, not into the answer. *)
Theorem verify_payment_without_paid_session
    (sessionId : string) (w : world) :
  (forall session : checkout_session,
     checkout_sessions_retrieve sessionId = inr session ->
     payment_status session <> "paid" ->
     verify_payment sessionId w =
       (Return (payment_not_completed (payment_status session)), w))
  /\
  (forall message : string,
     checkout_sessions_retrieve sessionId = inl message ->
     verify_payment sessionId w =
       (Return verification_failed,
        logged (LogError "Error verifying payment:"
                  [ArgError (StripeError message)]) w)).
Proof.
  split.
  - intros session Hget Hunpaid. unfold_handler. rewrite Hget.
    rewrite decide_False by exact Hunpaid. reflexivity.
  - intros message Hget. unfold_handler. rewrite Hget. reflexivity.
Qed.

(** The identifiers the verification endpoint reads from a session. *)
Lemma verify_payment_paid (sessionId : string) (session : checkout_session)
    (w : world) :
  checkout_sessions_retrieve sessionId = inr session ->
  payment_status session = "paid" ->
  let courseId := or_default (session_metadata session ≫= (.!! "courseId")) "" in
  let userId := or_default (session_metadata session ≫= (.!! "userId")) "" in
  let rec :=
    createEnrollmentWithPayment userId courseId (verify_amount session)
      sessionId w in
  verify_payment sessionId w =
  match rec with
  | (Return d, w') =>
      (Return (payment_verified session courseId userId
                 (verify_amount session) sessionId d), w')
  | (Throw e, w') =>
      (Return enrollment_record_failed,
       logged (LogError "Error creating enrollment:" [ArgError e]) w')
  end.
Proof.
  intros Hget Hpaid courseId userId rec. subst rec courseId userId.
  unfold_handler. rewrite Hget. rewrite decide_True by exact Hpaid.
  destruct (createEnrollmentWithPayment _ _ _ _ _) as [[d|e] w']; reflexivity.
Qed.

(** X10. For a paid session, a reconciliation that throws gives the 500
    answer "payment successful, enrollment failed", which is not the answer
    given when the payment could not be verified, and the store is as it was;
    a reconciliation that returns gives the 200 answer that carries the
    identifier of the one Enrollment the pair now has. *)
Theorem verify_payment_paid_session
    (sessionId : string) (session : checkout_session) (w : world) :
  checkout_sessions_retrieve sessionId = inr session ->
  payment_status session = "paid" ->
  let courseId := or_default (session_metadata session ≫= (.!! "courseId")) "" in
  let userId := or_default (session_metadata session ≫= (.!! "userId")) "" in
  let rec :=
    createEnrollmentWithPayment userId courseId (verify_amount session)
      sessionId w in
  let r := verify_payment sessionId w in
  enrollment_record_failed <> verification_failed /\
  (forall e : js_error,
     fst rec = Throw e ->
     fst r = Return enrollment_record_failed /\ store (snd r) = store w) /\
  (forall d : enrollment_data,
     fst rec = Return d ->
     fst r = Return (payment_verified session courseId userId
                       (verify_amount session) sessionId d) /\
     snd r = snd rec /\
     exists row : enrollment,
       enrollments_of userId courseId (enrollments (store (snd r))) = [row] /\
       enr_id row = enrollment_data_id d).
Proof.
  intros Hget Hpaid courseId userId rec r.
  split; [discriminate|].
  pose proof (verify_payment_paid sessionId session w Hget Hpaid) as Hrun.
  cbv zeta in Hrun. fold courseId userId rec r in Hrun.
  split.
  - intros e He. destruct rec as [[d|e'] w'] eqn:Hrec; cbn [fst] in He;
      [discriminate|]. rewrite Hrun. cbn [fst snd]. split; [reflexivity|].
    autorewrite with world. eapply reconcile_throw_store. exact Hrec.
  - intros d Hd. destruct rec as [[d'|e'] w'] eqn:Hrec; cbn [fst] in Hd;
      [|discriminate]. injection Hd as ->. rewrite Hrun. cbn [fst snd].
    split; [reflexivity|]. split; [reflexivity|].
    eapply reconcile_returned_row. exact Hrec.
Qed.

(** X11. A paid session without metadata is not rejected by the verification
    endpoint: the identifiers fall back to empty strings, and with store
    calls that succeed and no Enrollment for the pair of empty strings the
    endpoint answers 200 and has created an Enrollment whose student and
    course are both the empty string. *)
Theorem verify_payment_without_metadata_enrolls_empty_identifiers
    (sessionId : string) (session : checkout_session) (w : world) :
  checkout_sessions_retrieve sessionId = inr session ->
  payment_status session = "paid" ->
  session_metadata session = None ->
  enrollments_of "" "" (enrollments (store w)) = [] ->
  no_faults w ->
  let r := verify_payment sessionId w in
  let row := inserted_enrollment "" "" "active" w in
  fst r = Return (payment_verified session "" "" (verify_amount session)
                    sessionId (NewEnrollment row)) /\
  enrollments (store (snd r)) = enrollments (store w) ++ [row] /\
  student_id row = "" /\ course_id row = "".
Proof.
  intros Hget Hpaid Hmeta Hnone Hok r row.
  pose proof (verify_payment_paid sessionId session w Hget Hpaid) as Hrun.
  cbv zeta in Hrun. rewrite Hmeta in Hrun.
  change (or_default (None ≫= (.!! "courseId")) "") with "" in Hrun.
  change (or_default (None ≫= (.!! "userId")) "") with "" in Hrun.
  destruct (reconcile_run_new "" "" (verify_amount session) sessionId w
              Hnone Hok) as (Hret & Henr & _).
  fold row in Hret, Henr. fold r in Hrun.
  destruct (createEnrollmentWithPayment "" "" (verify_amount session)
              sessionId w) as [[d|e] w'] eqn:Hrec; cbn [fst snd] in *;
    [|discriminate].
  injection Hret as ->. rewrite Hrun. cbn [fst snd]. auto.
Qed.

End Endpoints.

(** ** Deliveries of the webhook, and the two paths to the reconciler *)

Section Deliveries.
Context `{StoreIds} `{Stripe} `{Env}.

Lemma db_eta (d : db) : mkDb (enrollments d) (payments d) (courses d) = d.
Proof. destruct d; reflexivity. Qed.

(** A second run with the same arguments, from any world that holds the
    store the first run left, finds both rows and writes nothing. *)
Lemma reconcile_again (u c : string) (amt : number) (ref : string)
    (w w1 : world) :
  enrollments_of u c (enrollments (store w)) = [] ->
  payments_reference_enrollments (store w) ->
  gt amt zero = true ->
  no_faults w ->
  store w1 = store (snd (createEnrollmentWithPayment u c amt ref w)) ->
  no_faults w1 ->
  let row := inserted_enrollment u c "active" w in
  store w1 =
    mkDb (enrollments (store w) ++ [row])
      (payments (store w) ++
       [inserted_payment (enr_id row) amt "stripe" ref "completed" w])
      (courses (store w)) /\
  fst (createEnrollmentWithPayment u c amt ref w) = Return (NewEnrollment row) /\
  fst (createEnrollmentWithPayment u c amt ref w1)
    = Return (ExistingEnrollment (enr_id row)) /\
  store (snd (createEnrollmentWithPayment u c amt ref w1)) = store w1.
Proof.
  intros Hnone Hfk Hgt Hok Hst Hok1 row.
  destruct (reconcile_run_new u c amt ref w Hnone Hok)
    as (Hret & Henr & Hpay & Hcrs).
  fold row in Hret, Henr, Hpay. rewrite Hgt in Hpay.
  assert (Hw1 : store w1 =
    mkDb (enrollments (store w) ++ [row])
      (payments (store w) ++
       [inserted_payment (enr_id row) amt "stripe" ref "completed" w])
      (courses (store w))).
  { rewrite Hst, <- Henr, <- Hpay, <- Hcrs. symmetry. apply db_eta. }
  assert (Hrow : enrollments_of u c (enrollments (store w1)) = [row]).
  { rewrite Hw1. cbn [enrollments]. subst row. unfold inserted_enrollment.
    rewrite enrollments_of_snoc, Hnone. reflexivity. }
  assert (Hp : payments_of (enr_id row) ref (payments (store w1)) =
               [inserted_payment (enr_id row) amt "stripe" ref "completed" w]).
  { rewrite Hw1. cbn [payments]. subst row.
    unfold inserted_enrollment, inserted_payment. cbn [enr_id].
    rewrite payments_of_snoc, payments_of_fresh_enrollment by exact Hfk.
    reflexivity. }
  destruct (reconcile_run_existing u c amt ref w1 row Hrow)
    as (Hret2 & Henr2 & Hpay2 & Hcrs2); [rewrite Hp; cbn; lia|exact Hok1|].
  rewrite Hp, app_nil_r in Hpay2.
  split; [exact Hw1|]. split; [exact Hret|]. split; [exact Hret2|].
  rewrite <- (db_eta (store (snd _))), Henr2, Hpay2, Hcrs2. apply db_eta.
Qed.

(** What the webhook does with a verified delivery of a paid, completed
    checkout that carries both identifiers. *)
Lemma stripe_webhook_reconciles (req : webhook_request) (w : world)
    (sig : string) (event : stripe_event) (courseId userId : string) :
  truthy_string (wr_stripe_signature req) = Some sig ->
  webhooks_constructEvent (wr_payload req) sig
    (or_default env_STRIPE_WEBHOOK_SECRET "") = inr event ->
  event_type event = "checkout.session.completed" ->
  payment_status (event_object event) = "paid" ->
  webhook_metadata (event_object event) = Some (courseId, userId) ->
  stripe_webhook req w =
  match createEnrollmentWithPayment userId courseId
          (webhook_amount (event_object event))
          (session_id (event_object event)) w with
  | (Return _, w') =>
      (Return received,
       logged (LogInfo ("Webhook: Successfully enrolled user " +:+ userId
                        +:+ " in course " +:+ courseId)) w')
  | (Throw e, w') =>
      (Return received,
       logged (LogError "Error processing enrollment:" [ArgError e]) w')
  end.
Proof.
  intros Hsig Hev Htype Hpaid Hmeta. unfold_handler. rewrite Hsig, Hev.
  rewrite decide_True by exact Htype. rewrite decide_True by exact Hpaid.
  rewrite Hmeta.
  destruct (createEnrollmentWithPayment _ _ _ _ _) as [[d|e] w']; reflexivity.
Qed.

(** X12. A verified delivery that is not a completed checkout, or whose
    session is not paid, is acknowledged and changes nothing: no call to the
    store and nothing on the console.  A paid, completed checkout whose
    metadata is absent or lacks [courseId] or [userId] is acknowledged too,
    with one console error naming the session and no call to the store. *)
Theorem stripe_webhook_ignores_other_deliveries
    (req : webhook_request) (w : world) (sig : string) (event : stripe_event) :
  truthy_string (wr_stripe_signature req) = Some sig ->
  webhooks_constructEvent (wr_payload req) sig
    (or_default env_STRIPE_WEBHOOK_SECRET "") = inr event ->
  (event_type event <> "checkout.session.completed" \/
   payment_status (event_object event) <> "paid" ->
   stripe_webhook req w = (Return received, w))
  /\
  (event_type event = "checkout.session.completed" ->
   payment_status (event_object event) = "paid" ->
   (session_metadata (event_object event) = None \/
    exists md : gmap string string,
      session_metadata (event_object event) = Some md /\
      (md !! "courseId" = None \/ md !! "userId" = None)) ->
   stripe_webhook req w =
     (Return received,
      logged (LogError "Missing metadata in session"
                [ArgString (session_id (event_object event))]) w)).
Proof.
  intros Hsig Hev. split.
  - intros Hother. unfold_handler. rewrite Hsig, Hev.
    destruct (decide (event_type event = "checkout.session.completed"));
      [|reflexivity].
    destruct (decide (payment_status (event_object event) = "paid"));
      [|reflexivity].
    destruct Hother; contradiction.
  - intros Htype Hpaid Hmeta. unfold_handler. rewrite Hsig, Hev.
    rewrite decide_True by exact Htype. rewrite decide_True by exact Hpaid.
    assert (Hnone : webhook_metadata (event_object event) = None).
    { unfold webhook_metadata.
      destruct Hmeta as [->|(md & -> & [->| ->])]; [reflexivity..|].
      destruct (md !! "courseId"); reflexivity. }
    rewrite Hnone. reflexivity.
Qed.

(** X13. A paid, completed checkout whose [amount_total] is absent, zero or
    NaN is reconciled with the amount [0]: no Payment is written under any
    fault plan, and with store calls that succeed and no Enrollment for the
    pair the Enrollment is created all the same. *)
Theorem stripe_webhook_without_amount_writes_no_payment
    (req : webhook_request) (w : world) (sig : string) (event : stripe_event)
    (courseId userId : string) :
  truthy_string (wr_stripe_signature req) = Some sig ->
  webhooks_constructEvent (wr_payload req) sig
    (or_default env_STRIPE_WEBHOOK_SECRET "") = inr event ->
  event_type event = "checkout.session.completed" ->
  payment_status (event_object event) = "paid" ->
  webhook_metadata (event_object event) = Some (courseId, userId) ->
  (amount_total (event_object event) = None \/
   exists n : number,
     amount_total (event_object event) = Some n /\ truthy n = false) ->
  let r := stripe_webhook req w in
  webhook_amount (event_object event) = zero /\
  payments (store (snd r)) = payments (store w) /\
  (enrollments_of userId courseId (enrollments (store w)) = [] ->
   no_faults w ->
   enrollments (store (snd r)) =
     enrollments (store w) ++ [inserted_enrollment userId courseId "active" w]).
Proof.
  intros Hsig Hev Htype Hpaid Hmeta Hamt r.
  assert (Hzero : webhook_amount (event_object event) = zero).
  { unfold webhook_amount. destruct Hamt as [->|(n & -> & ->)]; reflexivity. }
  pose proof (stripe_webhook_reconciles req w sig event courseId userId
                Hsig Hev Htype Hpaid Hmeta) as Hrun.
  fold r in Hrun. rewrite Hzero in Hrun.
  split; [exact Hzero|]. split.
  - destruct (reconcile_effect userId courseId zero
                (session_id (event_object event)) w)
      as (_ & _ & [Hp|[Hgt _]] & _); [|discriminate].
    rewrite Hrun.
    destruct (createEnrollmentWithPayment _ _ _ _ _) as [[d|e] w'];
      cbn [fst snd] in *; exact Hp.
  - intros Hnone Hok.
    destruct (reconcile_run_new userId courseId zero
                (session_id (event_object event)) w Hnone Hok)
      as (_ & Henr & _).
    rewrite Hrun.
    destruct (createEnrollmentWithPayment _ _ _ _ _) as [[d|e] w'];
      cbn [fst snd] in *; exact Henr.
Qed.


(** X14. A delivery made twice is processed once.  For a verified delivery of
    a paid, completed checkout with both identifiers and a positive amount,
    against a store with no Enrollment for the pair and with store calls that
    succeed, the first delivery appends the Enrollment and the Payment, the
    second leaves the store as the first left it, and both are
    acknowledged. *)
Theorem stripe_webhook_redelivery_is_idempotent
    (req : webhook_request) (w : world) (sig : string) (event : stripe_event)
    (courseId userId : string) :
  truthy_string (wr_stripe_signature req) = Some sig ->
  webhooks_constructEvent (wr_payload req) sig
    (or_default env_STRIPE_WEBHOOK_SECRET "") = inr event ->
  event_type event = "checkout.session.completed" ->
  payment_status (event_object event) = "paid" ->
  webhook_metadata (event_object event) = Some (courseId, userId) ->
  gt (webhook_amount (event_object event)) zero = true ->
  enrollments_of userId courseId (enrollments (store w)) = [] ->
  payments_reference_enrollments (store w) ->
  no_faults w ->
  let r1 := stripe_webhook req w in
  let r2 := stripe_webhook req (snd r1) in
  let row := inserted_enrollment userId courseId "active" w in
  fst r1 = Return received /\
  fst r2 = Return received /\
  store (snd r1) =
    mkDb (enrollments (store w) ++ [row])
      (payments (store w) ++
       [inserted_payment (enr_id row) (webhook_amount (event_object event))
          "stripe" (session_id (event_object event)) "completed" w])
      (courses (store w)) /\
  store (snd r2) = store (snd r1).
Proof.
  intros Hsig Hev Htype Hpaid Hmeta Hgt Hnone Hfk Hok r1 r2 row.
  pose proof (fun w => stripe_webhook_reconciles req w sig event courseId
                         userId Hsig Hev Htype Hpaid Hmeta) as Hrun.
  set (amt := webhook_amount (event_object event)) in *.
  set (ref := session_id (event_object event)) in *.
  assert (Hst1 : store (snd r1) =
                 store (snd (createEnrollmentWithPayment userId courseId amt ref w))
                 /\ no_faults (snd r1) /\ fst r1 = Return received).
  { pose proof (reconcile_no_faults userId courseId amt ref w Hok) as Hnf.
    subst r1. rewrite Hrun.
    destruct (createEnrollmentWithPayment _ _ _ _ w) as [[d|e] w'];
      cbn [fst snd] in *; auto. }
  destruct Hst1 as (Hst1 & Hok1 & Hres1).
  destruct (reconcile_again userId courseId amt ref w (snd r1)
              Hnone Hfk Hgt Hok Hst1 Hok1) as (Hw1 & _ & _ & Hsame).
  fold row in Hw1. split; [exact Hres1|]. subst r2. rewrite Hrun.
  destruct (createEnrollmentWithPayment _ _ _ _ (snd r1)) as [[d|e] w'];
    cbn [fst snd] in *; auto.
Qed.

Lemma webhook_metadata_or_default (session : checkout_session)
    (courseId userId : string) :
  webhook_metadata session = Some (courseId, userId) ->
  or_default (session_metadata session ≫= (.!! "courseId")) "" = courseId /\
  or_default (session_metadata session ≫= (.!! "userId")) "" = userId.
Proof.
  unfold webhook_metadata.
  destruct (session_metadata session) as [md|]; [|discriminate]. cbn.
  destruct (md !! "courseId") as [c|]; [|discriminate].
  destruct (md !! "userId") as [u|]; [|discriminate].
  intros [= -> ->]. unfold or_default, truthy_string.
  split; case_decide; subst; reflexivity.
Qed.

Lemma webhook_amount_positive (session : checkout_session) :
  gt (webhook_amount session) zero = true ->
  verify_amount session = webhook_amount session.
Proof.
  unfold webhook_amount, verify_amount.
  destruct (amount_total session) as [n|]; [|discriminate].
  destruct (truthy n); [reflexivity|discriminate].
Qed.

(** X15. The two paths by which a payment is reported converge.  For a paid,
    completed checkout with both identifiers and a positive amount, a store
    with no Enrollment for the pair and store calls that succeed: whichever
    of the webhook delivery and the verification request for that session
    comes first appends the Enrollment and the Payment, and the other one
    finds them, writes nothing, and still answers with success; the
    verification answer names the same Enrollment in both orders. *)
Theorem webhook_and_verification_converge
    (req : webhook_request) (w : world) (sig : string) (event : stripe_event)
    (courseId userId sessionId : string) :
  truthy_string (wr_stripe_signature req) = Some sig ->
  webhooks_constructEvent (wr_payload req) sig
    (or_default env_STRIPE_WEBHOOK_SECRET "") = inr event ->
  event_type event = "checkout.session.completed" ->
  payment_status (event_object event) = "paid" ->
  webhook_metadata (event_object event) = Some (courseId, userId) ->
  gt (webhook_amount (event_object event)) zero = true ->
  checkout_sessions_retrieve sessionId = inr (event_object event) ->
  session_id (event_object event) = sessionId ->
  enrollments_of userId courseId (enrollments (store w)) = [] ->
  payments_reference_enrollments (store w) ->
  no_faults w ->
  let session := event_object event in
  let amt := webhook_amount session in
  let row := inserted_enrollment userId courseId "active" w in
  let granted :=
    mkDb (enrollments (store w) ++ [row])
      (payments (store w) ++
       [inserted_payment (enr_id row) amt "stripe" sessionId "completed" w])
      (courses (store w)) in
  (let hook := stripe_webhook req w in
   let check := verify_payment sessionId (snd hook) in
   fst hook = Return received /\
   store (snd hook) = granted /\
   fst check = Return (payment_verified session courseId userId amt sessionId
                         (ExistingEnrollment (enr_id row))) /\
   store (snd check) = granted)
  /\
  (let check := verify_payment sessionId w in
   let hook := stripe_webhook req (snd check) in
   fst check = Return (payment_verified session courseId userId amt sessionId
                         (NewEnrollment row)) /\
   store (snd check) = granted /\
   fst hook = Return received /\
   store (snd hook) = granted).
Proof.
  intros Hsig Hev Htype Hpaid Hmeta Hgt Hget Hid Hnone Hfk Hok
    session amt row granted.
  pose proof (fun w => stripe_webhook_reconciles req w sig event courseId
                         userId Hsig Hev Htype Hpaid Hmeta) as Hhook.
  pose proof (fun w => verify_payment_paid sessionId session w Hget Hpaid)
    as Hcheck.
  cbv zeta in Hcheck.
  destruct (webhook_metadata_or_default session courseId userId Hmeta)
    as [Hc Hu].
  rewrite Hc, Hu, (webhook_amount_positive session Hgt) in Hcheck.
  rewrite Hid in Hhook. fold session amt in Hhook, Hgt, Hcheck.
  pose proof (reconcile_no_faults userId courseId amt sessionId w Hok) as Hnf.
  split.
  - intros hook check.
    assert (Hh : store (snd hook) =
                 store (snd (createEnrollmentWithPayment userId courseId amt
                               sessionId w))
                 /\ no_faults (snd hook) /\ fst hook = Return received).
    { subst hook. rewrite Hhook.
      destruct (createEnrollmentWithPayment _ _ _ _ w) as [[d|e] w'];
        cbn [fst snd] in *; auto. }
    destruct Hh as (Hst & Hok1 & Hres).
    destruct (reconcile_again userId courseId amt sessionId w (snd hook)
                Hnone Hfk Hgt Hok Hst Hok1) as (Hw1 & _ & Hret2 & Hsame).
    fold row granted in Hw1, Hret2.
    split; [exact Hres|]. split; [exact Hw1|].
    subst check. rewrite Hcheck.
    destruct (createEnrollmentWithPayment _ _ _ _ (snd hook)) as [[d|e] w'];
      cbn [fst snd] in *; [|discriminate].
    injection Hret2 as ->. rewrite Hsame. auto.
  - intros check hook.
    assert (Hcst : store (snd check) =
                   store (snd (createEnrollmentWithPayment userId courseId amt
                                 sessionId w))
                   /\ no_faults (snd check)).
    { subst check. rewrite Hcheck.
      destruct (createEnrollmentWithPayment _ _ _ _ w) as [[d|e] w'];
        cbn [fst snd] in *; auto. }
    destruct Hcst as (Hst & Hok1).
    destruct (reconcile_again userId courseId amt sessionId w (snd check)
                Hnone Hfk Hgt Hok Hst Hok1) as (Hw1 & Hret1 & _ & Hsame).
    fold row granted in Hw1, Hret1.
    split.
    { subst check. rewrite Hcheck.
      destruct (createEnrollmentWithPayment _ _ _ _ w) as [[d|e] w'];
        cbn [fst snd] in *; [|discriminate].
      injection Hret1 as ->. reflexivity. }
    split; [exact Hw1|].
    subst hook. rewrite Hhook.
    destruct (createEnrollmentWithPayment _ _ _ _ (snd check)) as [[d|e] w'];
      cbn [fst snd] in *; autorewrite with world; rewrite Hsame; auto.
Qed.

End Deliveries.

(** ** The free-enrollment and checkout endpoints *)

Section FreeAndCheckout.
Context `{StoreIds} `{Stripe} `{Env}.

(** X16. POST /api/create-free-enrollment refuses without reconciling: a
    request that lacks [userId] or [courseId] (absent or empty) gets the 400
    "Missing required parameters" and the world is untouched; when the price
    lookup fails, or the store holds no course or several courses with that
    identifier, the answer is the 500 "Failed to verify course", the price
    lookup is the only call made and the store is unchanged. *)
Theorem free_enrollment_refusals (req : free_enrollment_body) (w : world) :
  (truthy_string (fb_userId req) = None \/
   truthy_string (fb_courseId req) = None ->
   create_free_enrollment req w = (Return missing_parameters, w))
  /\
  (forall userId courseId : string,
     truthy_string (fb_userId req) = Some userId ->
     truthy_string (fb_courseId req) = Some courseId ->
     fails w = true \/
     length (filter (fun k => crs_id k = courseId) (courses (store w))) <> 1 ->
     let r := create_free_enrollment req w in
     fst r = Return course_verification_failed /\
     store (snd r) = store w /\
     calls (snd r) = calls w ++ [SelectCourse courseId]).
Proof.
  split.
  - intros Hmiss. unfold_handler.
    destruct (truthy_string (fb_userId req)) as [u|];
      destruct (truthy_string (fb_courseId req)) as [c|];
      destruct Hmiss; try discriminate; reflexivity.
  - intros userId courseId Hu Hc Hbad r. subst r. unfold_handler.
    rewrite Hu, Hc, select_course_price_run.
    assert (Herr : exists e : store_error,
              (if fails w then PgError StoreFault
               else single (price <$> filter (fun k => crs_id k = courseId)
                                        (courses (store w)))) = PgError e).
    { destruct Hbad as [->|Hlen]; [eauto|].
      destruct (fails w); [eauto|].
      destruct (filter _ (courses (store w))) as [|a [|b l]];
        cbn in Hlen |- *; eauto. congruence. }
    destruct Herr as [e ->]. cbn. auto.
Qed.

(** What the endpoint does once the course is found and its price is not
    positive. *)
Lemma create_free_enrollment_reconciles (req : free_enrollment_body)
    (userId courseId : string) (k : course) (w : world) :
  truthy_string (fb_userId req) = Some userId ->
  truthy_string (fb_courseId req) = Some courseId ->
  filter (fun k => crs_id k = courseId) (courses (store w)) = [k] ->
  gt (price k) zero = false ->
  fails w = false ->
  create_free_enrollment req w =
  match createEnrollmentWithPayment userId courseId zero "free-enrollment"
          (issued (SelectCourse courseId) w) with
  | (Return d, w') => (Return (free_enrollment_created d), w')
  | (Throw e, w') =>
      (Return free_enrollment_failed,
       logged (LogError "Error creating free enrollment:" [ArgError e]) w')
  end.
Proof.
  intros Hu Hc Hk Hfree Hf. unfold_handler.
  rewrite Hu, Hc, select_course_price_run, Hf, Hk. cbn [fmap list_fmap single].
  rewrite Hfree.
  destruct (createEnrollmentWithPayment _ _ _ _ _) as [[d|e] w']; reflexivity.
Qed.

(** X17. Enrolling twice in a free course enrolls once.  The gate is the test
    [price > 0] alone, so a course whose price is zero, negative or NaN is
    free.  For such a course, a store with no Enrollment for the pair and
    store calls that succeed, the first request creates the Enrollment and
    answers with its row, the second answers with the identifier of that same
    Enrollment and leaves the store as it was; no Payment is written by
    either. *)
Theorem free_enrollment_twice_enrolls_once
    (req : free_enrollment_body) (userId courseId : string) (k : course)
    (w : world) :
  truthy_string (fb_userId req) = Some userId ->
  truthy_string (fb_courseId req) = Some courseId ->
  filter (fun k => crs_id k = courseId) (courses (store w)) = [k] ->
  gt (price k) zero = false ->
  enrollments_of userId courseId (enrollments (store w)) = [] ->
  payments_reference_enrollments (store w) ->
  no_faults w ->
  let r1 := create_free_enrollment req w in
  let r2 := create_free_enrollment req (snd r1) in
  let row := inserted_enrollment userId courseId "active" w in
  fst r1 = Return (free_enrollment_created (NewEnrollment row)) /\
  store (snd r1) =
    mkDb (enrollments (store w) ++ [row]) (payments (store w))
      (courses (store w)) /\
  fst r2 = Return (free_enrollment_created (ExistingEnrollment (enr_id row))) /\
  store (snd r2) = store (snd r1).
Proof.
  intros Hu Hc Hk Hfree Hnone Hfk Hok r1 r2 row.
  assert (Hok0 : no_faults (issued (SelectCourse courseId) w)).
  { unfold no_faults in *. apply Forall_tail, Hok. }
  assert (Hf : fails w = false) by (apply no_faults_tail in Hok as [Hf _]; exact Hf).
  destruct (reconcile_run_new userId courseId zero "free-enrollment"
              (issued (SelectCourse courseId) w) Hnone Hok0)
    as (Hret & Henr & Hpay & Hcrs).
  change (gt zero zero) with false in Hpay. rewrite app_nil_r in Hpay.
  change (inserted_enrollment userId courseId "active"
            (issued (SelectCourse courseId) w)) with row in Hret, Henr.
  pose proof (reconcile_no_faults userId courseId zero "free-enrollment"
                _ Hok0) as Hnf.
  assert (Hfirst : fst r1 = Return (free_enrollment_created (NewEnrollment row)) /\
               store (snd r1) =
                 mkDb (enrollments (store w) ++ [row]) (payments (store w))
                   (courses (store w)) /\
               no_faults (snd r1)).
  { subst r1.
    rewrite (create_free_enrollment_reconciles req userId courseId k w
               Hu Hc Hk Hfree Hf).
    destruct (createEnrollmentWithPayment _ _ _ _ _) as [[d|e] w'];
      cbn [fst snd] in *; [|discriminate].
    injection Hret as ->. split; [reflexivity|]. split; [|exact Hnf].
    rewrite <- (db_eta (store w')), Henr, Hpay, Hcrs. reflexivity. }
  destruct Hfirst as (Hres1 & Hst1 & Hok1).
  split; [exact Hres1|]. split; [exact Hst1|].
  assert (Hok2 : no_faults (issued (SelectCourse courseId) (snd r1))).
  { unfold no_faults in *. apply Forall_tail, Hok1. }
  assert (Hf2 : fails (snd r1) = false)
    by (apply no_faults_tail in Hok1 as [Hf2 _]; exact Hf2).
  assert (Hrow : enrollments_of userId courseId
                   (enrollments (store (issued (SelectCourse courseId) (snd r1))))
                 = [row]).
  { autorewrite with world. rewrite Hst1. cbn [enrollments]. subst row.
    unfold inserted_enrollment. rewrite enrollments_of_snoc, Hnone.
    reflexivity. }
  assert (Hnopay : payments_of (enr_id row) "free-enrollment"
                     (payments (store (issued (SelectCourse courseId) (snd r1))))
                   = []).
  { autorewrite with world. rewrite Hst1. cbn [payments]. subst row.
    unfold inserted_enrollment. cbn [enr_id].
    apply payments_of_fresh_enrollment, Hfk. }
  destruct (reconcile_run_existing userId courseId zero "free-enrollment"
              (issued (SelectCourse courseId) (snd r1)) row Hrow)
    as (Hret2 & Henr2 & Hpay2 & Hcrs2); [rewrite Hnopay; cbn; lia|exact Hok2|].
  rewrite Hnopay in Hpay2. change (gt zero zero) with false in Hpay2.
  rewrite app_nil_r in Hpay2. autorewrite with world in Henr2, Hpay2, Hcrs2.
  subst r2.
  rewrite (create_free_enrollment_reconciles req userId courseId k (snd r1)
             Hu Hc); [|rewrite Hst1; exact Hk|exact Hfree|exact Hf2].
  destruct (createEnrollmentWithPayment _ _ _ _ (issued _ (snd r1)))
    as [[d|e] w']; cbn [fst snd] in *; [|discriminate].
  injection Hret2 as ->. split; [reflexivity|].
  rewrite <- (db_eta (store w')), Henr2, Hpay2, Hcrs2. apply db_eta.
Qed.

(** X18. POST /api/create-checkout-session answers 400 "Missing required
    parameters" exactly when [courseId], [courseTitle] or [userId] is absent
    or empty or [coursePrice] is absent, so a price of 0 is accepted; and
    whatever the request and the processor's answer, the handler makes no
    call to the store. *)
Theorem checkout_validation (req : checkout_body) (w : world) :
  let r := create_checkout_session req w in
  (fst r = Return missing_parameters <->
   truthy_string (cb_courseId req) = None \/
   truthy_string (cb_courseTitle req) = None \/
   cb_coursePrice req = None \/
   truthy_string (cb_userId req) = None) /\
  store (snd r) = store w /\
  calls (snd r) = calls w /\
  faults (snd r) = faults w.
Proof.
  intros r. subst r. unfold_handler.
  destruct (truthy_string (cb_courseId req)) as [c|];
    destruct (truthy_string (cb_courseTitle req)) as [t|];
    destruct (cb_coursePrice req) as [p|];
    destruct (truthy_string (cb_userId req)) as [u|];
    try destruct (checkout_sessions_create _) as [message|session];
    cbn [fst snd]; (split; [|auto]); split;
    try (intros _; auto; fail);
    try (intros [= ]; fail);
    try (intros [Hn|[Hn|[Hn|Hn]]]; discriminate);
    try reflexivity.
Qed.

(** X19. The redirect URLs of a checkout session.  A success or cancel URL
    that the request supplies, and that is not empty, is passed on as it is.
    When it is absent or empty the URL is built on the configured front-end
    URL, and when that is absent or empty too, on [http://localhost:5173]:
    the success URL ends in the processor's session placeholder and the
    cancel URL points at the course. *)
Theorem checkout_redirect_urls
    (courseId courseTitle userId : string) (coursePrice : number)
    (successUrl cancelUrl : option string) :
  let params :=
    checkout_params courseId courseTitle coursePrice userId successUrl
      cancelUrl in
  (forall s : string,
     successUrl = Some s -> s <> "" -> success_url params = s) /\
  (forall s : string,
     cancelUrl = Some s -> s <> "" -> cancel_url params = s) /\
  (truthy_string successUrl = None ->
   success_url params =
     FRONTEND_URL +:+ "/payment/success?session_id={CHECKOUT_SESSION_ID}") /\
  (truthy_string cancelUrl = None ->
   cancel_url params = FRONTEND_URL +:+ "/courses/" +:+ courseId) /\
  (truthy_string env_FRONTEND_URL = None ->
   FRONTEND_URL = "http://localhost:5173").
Proof.
  intros params. subst params. cbn [success_url cancel_url checkout_params].
  unfold FRONTEND_URL, or_default.
  repeat split.
  - intros s -> Hs. cbn. rewrite decide_False by exact Hs. reflexivity.
  - intros s -> Hs. cbn. rewrite decide_False by exact Hs. reflexivity.
  - intros ->. reflexivity.
  - intros ->. reflexivity.
  - intros ->. reflexivity.
Qed.

End FreeAndCheckout.

(** ** Invariants over sequences of operations *)

Section Sequences.
Context `{StoreIds} `{Stripe} `{Env}.

(** Whatever an operation does to the store, one run of the reconciler from
    a world with the same store does. *)
Lemma perform_reconciles (op : operation) (w : world) :
  store (perform op w) = store w \/
  exists (u c : string) (amt : number) (ref : string) (w0 : world),
    store w0 = store w /\
    store (perform op w) =
      store (snd (createEnrollmentWithPayment u c amt ref w0)).
Proof.
  assert (Hrun : forall u c amt ref w0 o w',
             store w0 = store w ->
             createEnrollmentWithPayment u c amt ref w0 = (o, w') ->
             store w' = store w \/
             exists (u c : string) (amt : number) (ref : string) (w0 : world),
               store w0 = store w /\
               store w' =
                 store (snd (createEnrollmentWithPayment u c amt ref w0))).
  { intros u c amt ref w0 o w' Hst Hr. right. exists u, c, amt, ref, w0.
    rewrite Hr. auto. }
  destruct op as [u c amt ref|req|req|sessionId|req]; cbn [perform].
  - right. exists u, c, amt, ref, w. auto.
  - left. unfold_handler. repeat case_match; reflexivity.
  - unfold_handler.
    repeat case_match; simplify_eq; cbn [snd]; autorewrite with world;
      try (left; reflexivity);
      match goal with
      | Hr : createEnrollmentWithPayment ?u ?c ?a ?r ?w0 = (?o, ?w') |- _ =>
          apply (Hrun u c a r w0 o w'); [reflexivity|exact Hr]
      end.
  - unfold_handler.
    repeat case_match; simplify_eq; cbn [snd]; autorewrite with world;
      try (left; reflexivity);
      match goal with
      | Hr : createEnrollmentWithPayment ?u ?c ?a ?r ?w0 = (?o, ?w') |- _ =>
          apply (Hrun u c a r w0 o w'); [reflexivity|exact Hr]
      end.
  - unfold_handler.
    repeat case_match; simplify_eq; cbn [snd]; autorewrite with world;
      repeat match goal with
      | Hsel : select_course_price _ _ = _ |- _ =>
          apply select_course_price_store in Hsel
      end;
      try (left; congruence);
      match goal with
      | Hr : createEnrollmentWithPayment ?u ?c ?a ?r ?w0 = (?o, ?w') |- _ =>
          apply (Hrun u c a r w0 o w'); [assumption|exact Hr]
      end.
Qed.

Lemma perform_all_invariant (I : db -> Prop) :
  (forall (u c : string) (amt : number) (ref : string) (w : world),
     I (store w) ->
     I (store (snd (createEnrollmentWithPayment u c amt ref w)))) ->
  forall (ops : list operation) (w : world),
    I (store w) -> I (store (perform_all ops w)).
Proof.
  intros Hstep ops w Hw. induction ops as [|op ops IH] using rev_ind;
    [exact Hw|].
  rewrite perform_all_snoc.
  destruct (perform_reconciles op (perform_all ops w))
    as [->|(u & c & amt & ref & w0 & Hst & ->)]; [exact IH|].
  apply Hstep. rewrite Hst. exact IH.
Qed.

(** X20. The service only ever appends.  After any sequence of operations the
    Enrollments and the Payments of the store are the ones it started with,
    in the same order and unchanged, followed by new rows, at most one row
    per table for each operation; the courses are untouched.  No row is
    updated or deleted. *)
Theorem operations_only_append (ops : list operation) (w : world) :
  exists (es : list enrollment) (ps : list payment),
    enrollments (store (perform_all ops w)) = enrollments (store w) ++ es /\
    payments (store (perform_all ops w)) = payments (store w) ++ ps /\
    courses (store (perform_all ops w)) = courses (store w) /\
    length es <= length ops /\
    length ps <= length ops.
Proof.
  induction ops as [|op ops IH] using rev_ind.
  - exists [], []. cbn. rewrite !app_nil_r. auto.
  - destruct IH as (es & ps & He & Hp & Hc & Hle & Hlp).
    rewrite perform_all_snoc, length_app. cbn [length].
    destruct (perform_store_step op (perform_all ops w))
      as (Hc' & He' & Hp').
    assert (Hes : exists es', enrollments (store (perform op (perform_all ops w)))
                              = enrollments (store w) ++ es'
                              /\ length es' <= length ops + 1).
    { destruct He' as [->|(row & _ & ->)]; rewrite He.
      - exists es. split; [reflexivity|lia].
      - exists (es ++ [row]). rewrite app_assoc, length_app. cbn.
        split; [reflexivity|lia]. }
    assert (Hps : exists ps', payments (store (perform op (perform_all ops w)))
                              = payments (store w) ++ ps'
                              /\ length ps' <= length ops + 1).
    { destruct Hp' as [->|(p & ->)]; rewrite Hp.
      - exists ps. split; [reflexivity|lia].
      - exists (ps ++ [p]). rewrite app_assoc, length_app. cbn.
        split; [reflexivity|lia]. }
    destruct Hes as (es' & Hes & Hles). destruct Hps as (ps' & Hps & Hlps).
    exists es', ps'. rewrite Hc', Hc. auto.
Qed.

Lemma payments_of_snoc_other (eid eid' : id) (ref ref' : string)
    (l : list payment) (p : payment) :
  (enrollment_id p, transaction_id p) <> (eid, ref) ->
  payments_of eid ref (l ++ [p]) = payments_of eid ref l.
Proof.
  intros Hne. unfold payments_of. rewrite filter_app.
  rewrite (filter_cons_False _ p); [apply app_nil_r|].
  intros [<- <-]. apply Hne. reflexivity.
Qed.

Lemma references_grow (es : list enrollment) (row : enrollment)
    (ps : list payment) :
  Forall (fun p => enrollment_id p ∈ (enr_id <$> es)) ps ->
  Forall (fun p => enrollment_id p ∈ (enr_id <$> es ++ [row])) ps.
Proof.
  intros Hall. eapply Forall_impl; [exact Hall|]. intros p Hin. cbn beta in *.
  rewrite fmap_app.
  apply elem_of_app. left. exact Hin.
Qed.

(** One run of the reconciler keeps referential integrity and the uniqueness
    of Payments. *)
Lemma reconcile_keeps_payment_invariants (u c : string) (amt : number)
    (ref : string) (w : world) :
  payments_reference_enrollments (store w) /\ unique_payments (store w) ->
  let d' := store (snd (createEnrollmentWithPayment u c amt ref w)) in
  payments_reference_enrollments d' /\ unique_payments d'.
Proof.
  intros [Hfk Huniq] d'. subst d'.
  assert (Hadd : forall (eid : id) (p : payment),
             enrollment_id p = eid -> transaction_id p = ref ->
             payments_of eid ref (payments (store w)) = [] ->
             forall (eid' : id) (ref' : string),
               length (payments_of eid' ref' (payments (store w) ++ [p])) <= 1).
  { intros eid p He Hr Hnone eid' ref'.
    destruct (decide ((enrollment_id p, transaction_id p) = (eid', ref')))
      as [[= <- <-]|Hne].
    - unfold payments_of in *. rewrite filter_app.
      rewrite (filter_cons_True _ p) by auto.
      rewrite He, Hr, Hnone. cbn. lia.
    - rewrite (payments_of_snoc_other eid' eid' ref' ref') by exact Hne.
      apply Huniq. }
  destruct (reconcile_outcomes u c amt ref w)
    as [(e' & _ & ->)|[(old & _ & _ & -> & _)
       |[(old & Hold & _ & _ & Hnone & ->)
       |[(_ & _ & ->)|(Hnone & _ & _ & ->)]]]];
    try (split; assumption).
  - split.
    + unfold payments_reference_enrollments in *. cbn [payments enrollments].
      apply Forall_app. split; [exact Hfk|]. apply Forall_singleton.
      cbn [enrollment_id inserted_payment].
      apply list_elem_of_fmap. exists old. split; [reflexivity|].
      assert (Hin : old ∈ enrollments_of u c (enrollments (store w)))
        by (rewrite Hold; apply list_elem_of_here).
      apply list_elem_of_filter in Hin as [_ Hin]. exact Hin.
    + intros eid' ref'. cbn [payments].
      apply (Hadd (enr_id old)); [reflexivity..|exact Hnone].
  - split.
    + unfold payments_reference_enrollments in *. cbn [payments enrollments].
      apply references_grow, Hfk.
    + exact Huniq.
  - split.
    + unfold payments_reference_enrollments in *. cbn [payments enrollments].
      apply Forall_app. split; [apply references_grow, Hfk|].
      apply Forall_singleton. cbn [enrollment_id inserted_payment].
      rewrite fmap_app. apply elem_of_app. right. apply list_elem_of_here.
    + intros eid' ref'. cbn [payments].
      apply (Hadd (enr_id (inserted_enrollment u c "active" w)));
        [reflexivity..|].
      unfold inserted_enrollment. cbn [enr_id].
      apply payments_of_fresh_enrollment, Hfk.
Qed.

(** X21. Every sequence of operations, under every fault plan, keeps the
    store's Payments well formed: when every Payment references an Enrollment
    of the store and there is at most one Payment per (enrollment,
    transaction reference), the same holds afterwards. *)
Theorem operations_keep_payment_invariants
    (ops : list operation) (w : world) :
  payments_reference_enrollments (store w) ->
  unique_payments (store w) ->
  payments_reference_enrollments (store (perform_all ops w)) /\
  unique_payments (store (perform_all ops w)).
Proof.
  intros Hfk Huniq.
  apply (perform_all_invariant
           (fun d => payments_reference_enrollments d /\ unique_payments d));
    [|auto].
  intros u c amt ref w0. apply reconcile_keeps_payment_invariants.
Qed.

(** X22. Every Payment the service writes has a positive amount, the method
    [stripe] and the status [completed]: if all Payments of the store are of
    that form, they all are after any sequence of operations.  In particular
    a free enrollment and a checkout whose total is absent or zero never
    leave a Payment of amount zero. *)
Theorem operations_write_completed_positive_payments
    (ops : list operation) (w : world) :
  Forall payment_as_written (payments (store w)) ->
  Forall payment_as_written (payments (store (perform_all ops w))).
Proof.
  apply (perform_all_invariant
           (fun d => Forall payment_as_written (payments d))).
  intros u c amt ref w0 Hall.
  destruct (reconcile_outcomes u c amt ref w0)
    as [(e' & _ & ->)|[(old & _ & _ & -> & _)
       |[(old & _ & _ & Hgt & _ & ->)
       |[(_ & _ & ->)|(_ & _ & Hgt & ->)]]]];
    cbn [payments]; try exact Hall;
    (apply Forall_app; split; [exact Hall|]); apply Forall_singleton;
    unfold payment_as_written, inserted_payment; cbn; auto.
Qed.

End Sequences.

(** ** Prices in whole cents *)

Lemma same_number_eq (x y : number) : same_number x y = true -> x = y.
Proof.
  destruct x as [s|s| |s m e], y as [s'|s'| |s' m' e']; cbn;
    try discriminate; try reflexivity.
  - intros Hs. apply Bool.eqb_prop in Hs. congruence.
  - intros Hs. apply Bool.eqb_prop in Hs. congruence.
  - intros Hall. apply andb_prop in Hall as [Hall He].
    apply andb_prop in Hall as [Hs Hm].
    apply Bool.eqb_prop in Hs. apply Pos.eqb_eq in Hm. apply Z.eqb_eq in He.
    congruence.
Qed.

Lemma all_below_spec (f : N -> bool) (n : N) :
  all_below n f = true -> forall k : N, (k < n)%N -> f k = true.
Proof.
  unfold all_below.
  set (step := fun st : N * bool => (N.succ (fst st), snd st && f (fst st))).
  assert (Hiter : forall m : N,
             fst (N.iter m step (0%N, true)) = m /\
             (snd (N.iter m step (0%N, true)) = true ->
              forall k : N, (k < m)%N -> f k = true)).
  { induction m as [|m [Hfst Hsnd]] using N.peano_ind.
    - split; [reflexivity|]. intros _ k Hk. lia.
    - rewrite N.iter_succ. unfold step at 1. cbn [fst snd]. rewrite Hfst.
      split; [reflexivity|]. intros Hall k Hk.
      apply andb_prop in Hall as [Hprev Hm].
      rewrite Hfst in Hm.
      destruct (decide (k = m)) as [->|Hne]; [exact Hm|].
      apply Hsnd; [exact Hprev|lia]. }
  intros Hall. apply Hiter, Hall.
Qed.

Lemma cents_round_trip_below_20001 :
  all_below 20001 cents_round_trip = true.
Proof. vm_compute. reflexivity. Qed.

Section Cents.
Context `{Env}.

(** X23. The amount recorded is the price charged.  For every price of [n]
    whole cents written with two decimals, from 0.00 to 200.00, the checkout
    sends the line item unit amount [n] exactly, and a session whose
    [amount_total] is that [n] is reconciled by the webhook and by the
    verification endpoint with an amount equal to the price: the two
    conversions [Math.round(price * 100)] and [amount_total / 100] are
    inverse to each other on these prices. *)
Theorem price_in_cents_round_trip
    (n : N) (courseId courseTitle userId : string)
    (successUrl cancelUrl : option string) (session : checkout_session) :
  (n <= 20000)%N ->
  let coursePrice := of_decimal (Z.of_N n) 2 in
  let params :=
    checkout_params courseId courseTitle coursePrice userId successUrl
      cancelUrl in
  unit_amount <$> line_items params = [of_Z (Z.of_N n)] /\
  (amount_total session = Some (of_Z (Z.of_N n)) ->
   webhook_amount session = coursePrice /\
   verify_amount session = coursePrice).
Proof.
  intros Hn coursePrice params.
  pose proof (all_below_spec cents_round_trip 20001
                cents_round_trip_below_20001 n ltac:(lia)) as Hcheck.
  unfold cents_round_trip in Hcheck.
  apply andb_prop in Hcheck as [Hround Htruthy].
  apply same_number_eq in Hround.
  split.
  - subst params coursePrice. cbn [line_items checkout_params fmap list_fmap
      unit_amount]. rewrite Hround. reflexivity.
  - intros Htotal. unfold webhook_amount, verify_amount. rewrite Htotal.
    apply Bool.orb_prop in Htruthy as [->|Hzero]; [split; reflexivity|].
    apply N.eqb_eq in Hzero. subst n coursePrice. split; reflexivity.
Qed.

End Cents.

(** ** Further scenarios *)

Section FurtherScenarios.
#[local] Existing Instances sequential_ids scenario_stripe test_env.

Lemma reconcile_throw_leaves_store_unchanged_witness :
  let w := mkWorld enrolled [false; false; true] [] [] in
  let r := createEnrollmentWithPayment "u1" "c1" (of_decimal 4999 2) "cs_1" w in
  fst r = Throw (PostgrestError StoreFault) /\ store (snd r) = enrolled.
Proof.
  intros w r. split; [reflexivity|].
  apply (reconcile_throw_leaves_store_unchanged "u1" "c1" (of_decimal 4999 2)
           "cs_1" w (PostgrestError StoreFault)).
  reflexivity.
Defined.

Lemma reconcile_returns_the_enrollment_of_the_pair_witness :
  let w := mkWorld catalogue [false; false; true] [] [] in
  let r := createEnrollmentWithPayment "u1" "c1" (of_decimal 4999 2) "cs_1" w in
  let new := mkEnrollment 1%N "u1" "c1" "active" in
  fst r = Return (NewEnrollment new) /\
  exists row : enrollment,
    enrollments_of "u1" "c1" (enrollments (store (snd r))) = [row] /\
    enr_id row = 1%N /\ new = row /\ enr_status row = "active".
Proof.
  intros w r new. split; [reflexivity|].
  destruct (reconcile_returns_the_enrollment_of_the_pair "u1" "c1"
              (of_decimal 4999 2) "cs_1" w (NewEnrollment new))
    as (row & Hrow & Hid & Hnew); [reflexivity|].
  destruct (Hnew new eq_refl) as (Heq & Hst & _).
  exists row. auto.
Defined.

Lemma reconcile_payment_written_witness :
  let w := mkWorld enrolled [] [] [] in
  let r := createEnrollmentWithPayment "u1" "c1" (of_decimal 4999 2) "cs_1" w in
  payments (store (snd r)) <> payments (store w) /\
  exists (d : enrollment_data) (pid : id),
    fst r = Return d /\
    payments (store (snd r)) =
      [mkPayment pid (enrollment_data_id d) (of_decimal 4999 2) "stripe"
         "cs_1" "completed"].
Proof.
  intros w r. split; [discriminate|].
  destruct (reconcile_payment_written "u1" "c1" (of_decimal 4999 2) "cs_1" w)
    as [Hsame|(d & pid & Hret & _ & Hpay & _)]; [discriminate|].
  exists d, pid. auto.
Defined.

Lemma reconcile_duplicates_throw_witness :
  let twice :=
    mkDb [mkEnrollment 1%N "u1" "c1" "active";
          mkEnrollment 2%N "u1" "c1" "active"] [] [] in
  let r :=
    createEnrollmentWithPayment "u1" "c1" (of_decimal 4999 2) "cs_1"
      (mkWorld twice [] [] []) in
  fst r = Throw (PostgrestError PGRST116) /\
  store (snd r) = twice /\
  calls (snd r) = [SelectEnrollment "u1" "c1"].
Proof.
  intros twice r.
  apply (reconcile_duplicates_throw "u1" "c1" (of_decimal 4999 2) "cs_1"
           (mkWorld twice [] [] [])).
  - vm_compute. lia.
  - reflexivity.
Defined.

Lemma reconcile_retry_writes_missing_payment_witness :
  let w := mkWorld catalogue [false; false; true] [] [] in
  let r1 := createEnrollmentWithPayment "u1" "c1" (of_decimal 4999 2) "cs_1" w in
  let r2 :=
    createEnrollmentWithPayment "u1" "c1" (of_decimal 4999 2) "cs_1" (snd r1) in
  payments (store (snd r1)) = [] /\
  fst r2 = Return (ExistingEnrollment 1%N) /\
  payments (store (snd r2)) =
    [mkPayment 1%N 1%N (of_decimal 4999 2) "stripe" "cs_1" "completed"].
Proof.
  intros w r1 r2.
  destruct (reconcile_retry_writes_missing_payment "u1" "c1"
              (of_decimal 4999 2) "cs_1" w [])
    as (_ & Hp1 & Hret & _ & Hp2);
    [reflexivity|constructor|reflexivity|reflexivity|constructor|].
  auto.
Defined.

Lemma reconcile_twice_distinct_references_witness :
  let w := mkWorld catalogue [] [] [] in
  let r1 := createEnrollmentWithPayment "u1" "c1" (of_decimal 4999 2) "cs_1" w in
  let r2 :=
    createEnrollmentWithPayment "u1" "c1" (of_decimal 1999 2) "cs_2" (snd r1) in
  "cs_1" <> "cs_2" /\
  exists p1 p2 : payment,
    payments (store (snd r2)) = [p1; p2] /\
    amount p1 = of_decimal 4999 2 /\ amount p2 = of_decimal 1999 2 /\
    length (enrollments_of "u1" "c1" (enrollments (store (snd r2)))) = 1.
Proof.
  intros w r1 r2. split; [discriminate|].
  destruct (reconcile_twice_distinct_references "u1" "c1"
              (of_decimal 4999 2) (of_decimal 1999 2) "cs_1" "cs_2" w)
    as (_ & _ & Hrow & p1 & p2 & Hp & _ & _ & Ha1 & Ha2);
    [discriminate|reflexivity|constructor|reflexivity|reflexivity
    |constructor|].
  exists p1, p2. split; [exact Hp|]. split; [exact Ha1|].
  split; [exact Ha2|]. exact (f_equal length Hrow).
Defined.

Lemma endpoints_answer_and_failures_write_nothing_witness :
  let w := mkWorld enrolled [false; false; true] [] [] in
  exists resp : response,
    fst (route (GetVerifyPayment "cs_test_1") w) = Return resp /\
    status resp = 500 /\
    store (snd (route (GetVerifyPayment "cs_test_1") w)) = enrolled.
Proof.
  intros w.
  destruct (endpoints_answer_and_failures_write_nothing
              (GetVerifyPayment "cs_test_1") w) as (resp & Hres & _ & Hst).
  exists resp. split; [exact Hres|].
  assert (Hresp : Return resp = Return enrollment_record_failed)
    by (rewrite <- Hres; reflexivity).
  injection Hresp as ->. split; [reflexivity|]. apply Hst. discriminate.
Defined.

Lemma verify_payment_without_paid_session_witness :
  let w := mkWorld catalogue [] [] [] in
  verify_payment "cs_unpaid" w = (Return (payment_not_completed "unpaid"), w) /\
  fst (verify_payment "cs_unknown" w) = Return verification_failed /\
  calls (snd (verify_payment "cs_unknown" w)) = [].
Proof.
  intros w. split.
  - destruct (verify_payment_without_paid_session "cs_unpaid" w) as [Hunpaid _].
    apply (Hunpaid (mkSession "cs_unpaid" None "unpaid"
                      (Some (<["courseId" := "c1"]> (<["userId" := "u1"]> ∅)))
                      (Some (of_Z 4999)) None)); [reflexivity|discriminate].
  - destruct (verify_payment_without_paid_session "cs_unknown" w) as [_ Hfail].
    rewrite (Hfail "No such checkout.session: cs_unknown");
      [split; reflexivity|reflexivity].
Defined.

Lemma verify_payment_paid_session_witness :
  let broken := verify_payment "cs_test_1" (mkWorld catalogue [true] [] []) in
  let ok := verify_payment "cs_test_1" (mkWorld catalogue [] [] []) in
  (fst broken = Return enrollment_record_failed /\
   store (snd broken) = catalogue) /\
  exists row : enrollment,
    enrollments_of "u1" "c1" (enrollments (store (snd ok))) = [row] /\
    enr_id row = 1%N.
Proof.
  intros broken ok. split.
  - destruct (verify_payment_paid_session "cs_test_1"
                (paid_session "cs_test_1" "c1" "u1" 4999)
                (mkWorld catalogue [true] [] []))
      as (_ & Hthrow & _); [reflexivity..|].
    apply (Hthrow (PostgrestError StoreFault)). reflexivity.
  - destruct (verify_payment_paid_session "cs_test_1"
                (paid_session "cs_test_1" "c1" "u1" 4999)
                (mkWorld catalogue [] [] []))
      as (_ & _ & Hret); [reflexivity..|].
    destruct (Hret (NewEnrollment (mkEnrollment 1%N "u1" "c1" "active")))
      as (_ & _ & row & Hrow & Hid); [reflexivity|].
    exists row. auto.
Defined.

Lemma verify_payment_without_metadata_enrolls_empty_identifiers_witness :
  let r := verify_payment "cs_nometa" (mkWorld catalogue [] [] []) in
  enrollments (store (snd r)) = [mkEnrollment 1%N "" "" "active"].
Proof.
  intros r.
  destruct (verify_payment_without_metadata_enrolls_empty_identifiers
              "cs_nometa"
              (mkSession "cs_nometa" None "paid" None (Some (of_Z 4999)) None)
              (mkWorld catalogue [] [] []))
    as (_ & Henr & _);
    [reflexivity|reflexivity|reflexivity|reflexivity|constructor|].
  exact Henr.
Defined.


Lemma stripe_webhook_ignores_other_deliveries_witness :
  let w := mkWorld catalogue [] [] [] in
  stripe_webhook (mkWebhookRequest "{}" (Some "t=1,v1=refund")) w
    = (Return received, w) /\
  stripe_webhook (mkWebhookRequest "{}" (Some "t=1,v1=nometa")) w
    = (Return received,
       logged (LogError "Missing metadata in session" [ArgString "cs_nometa"])
         w).
Proof.
  intros w. split.
  - destruct (stripe_webhook_ignores_other_deliveries
                (mkWebhookRequest "{}" (Some "t=1,v1=refund")) w
                "t=1,v1=refund"
                (mkEvent "charge.refunded"
                   (paid_session "cs_test_1" "c1" "u1" 4999)))
      as [Hother _]; [reflexivity..|].
    apply Hother. left. discriminate.
  - destruct (stripe_webhook_ignores_other_deliveries
                (mkWebhookRequest "{}" (Some "t=1,v1=nometa")) w
                "t=1,v1=nometa"
                (mkEvent "checkout.session.completed"
                   (mkSession "cs_nometa" None "paid" None (Some (of_Z 4999))
                      None)))
      as [_ Hmeta]; [reflexivity..|].
    apply Hmeta; [reflexivity|reflexivity|left; reflexivity].
Defined.

Lemma stripe_webhook_without_amount_writes_no_payment_witness :
  let r :=
    stripe_webhook (mkWebhookRequest "{}" (Some "t=1,v1=zero"))
      (mkWorld catalogue [] [] []) in
  payments (store (snd r)) = [] /\
  enrollments (store (snd r)) = [mkEnrollment 1%N "u1" "c1" "active"].
Proof.
  intros r.
  destruct (stripe_webhook_without_amount_writes_no_payment
              (mkWebhookRequest "{}" (Some "t=1,v1=zero"))
              (mkWorld catalogue [] [] []) "t=1,v1=zero"
              (mkEvent "checkout.session.completed"
                 (mkSession "cs_zero" None "paid"
                    (Some (<["courseId" := "c1"]> (<["userId" := "u1"]> ∅)))
                    None None))
              "c1" "u1")
    as (_ & Hpay & Henr); [reflexivity..|left; reflexivity|].
  split; [exact Hpay|]. apply Henr; [reflexivity|constructor].
Defined.

Lemma stripe_webhook_redelivery_is_idempotent_witness :
  let req := mkWebhookRequest "{}" (Some "t=1,v1=valid") in
  let r1 := stripe_webhook req (mkWorld catalogue [] [] []) in
  let r2 := stripe_webhook req (snd r1) in
  fst r2 = Return received /\
  enrollments (store (snd r2)) = [mkEnrollment 1%N "u1" "c1" "active"] /\
  payments (store (snd r2)) =
    [mkPayment 1%N 1%N (of_decimal 4999 2) "stripe" "cs_test_1" "completed"].
Proof.
  intros req r1 r2.
  destruct (stripe_webhook_redelivery_is_idempotent req
              (mkWorld catalogue [] [] []) "t=1,v1=valid"
              (mkEvent "checkout.session.completed"
                 (paid_session "cs_test_1" "c1" "u1" 4999))
              "c1" "u1")
    as (_ & Hres & Hst1 & Hst2);
    [reflexivity..|constructor|constructor|].
  fold r1 r2 in Hst2. fold r1 in Hst1. fold r2 in Hres. rewrite Hst2, Hst1.
  split; [exact Hres|]. split; reflexivity.
Defined.

Lemma webhook_and_verification_converge_witness :
  let req := mkWebhookRequest "{}" (Some "t=1,v1=valid") in
  let w := mkWorld catalogue [] [] [] in
  let granted :=
    mkDb [mkEnrollment 1%N "u1" "c1" "active"]
      [mkPayment 1%N 1%N (of_decimal 4999 2) "stripe" "cs_test_1" "completed"]
      (courses catalogue) in
  store (snd (verify_payment "cs_test_1" (snd (stripe_webhook req w))))
    = granted /\
  store (snd (stripe_webhook req (snd (verify_payment "cs_test_1" w))))
    = granted.
Proof.
  intros req w granted.
  destruct (webhook_and_verification_converge req w "t=1,v1=valid"
              (mkEvent "checkout.session.completed"
                 (paid_session "cs_test_1" "c1" "u1" 4999))
              "c1" "u1" "cs_test_1")
    as [(_ & _ & _ & Hfirst) (_ & _ & _ & Hsecond)];
    [reflexivity..|constructor|constructor|].
  split; [exact Hfirst|exact Hsecond].
Defined.

Lemma free_enrollment_refusals_witness :
  let w := mkWorld catalogue [] [] [] in
  create_free_enrollment (mkFreeBody (Some "u1") (Some "")) w
    = (Return missing_parameters, w) /\
  fst (create_free_enrollment (mkFreeBody (Some "u1") (Some "c9")) w)
    = Return course_verification_failed /\
  calls (snd (create_free_enrollment (mkFreeBody (Some "u1") (Some "c9")) w))
    = [SelectCourse "c9"].
Proof.
  intros w. split.
  - apply (free_enrollment_refusals (mkFreeBody (Some "u1") (Some "")) w).
    right. reflexivity.
  - destruct (free_enrollment_refusals (mkFreeBody (Some "u1") (Some "c9")) w)
      as [_ Hfail].
    destruct (Hfail "u1" "c9") as (Hres & _ & Hcalls);
      [reflexivity|reflexivity|right; vm_compute; lia|].
    auto.
Defined.

Lemma free_enrollment_twice_enrolls_once_witness :
  let req := mkFreeBody (Some "u1") (Some "c0") in
  let r1 := create_free_enrollment req (mkWorld catalogue [] [] []) in
  let r2 := create_free_enrollment req (snd r1) in
  fst r2 = Return (free_enrollment_created (ExistingEnrollment 1%N)) /\
  enrollments (store (snd r2)) = [mkEnrollment 1%N "u1" "c0" "active"] /\
  payments (store (snd r2)) = [].
Proof.
  intros req r1 r2.
  destruct (free_enrollment_twice_enrolls_once req "u1" "c0"
              (mkCourse "c0" zero) (mkWorld catalogue [] [] []))
    as (_ & Hst1 & Hres & Hst2);
    [reflexivity..|constructor|constructor|].
  fold r1 r2 in Hst2. fold r1 in Hst1. fold r2 in Hres. rewrite Hst2, Hst1.
  split; [exact Hres|]. split; reflexivity.
Defined.

Lemma checkout_validation_witness :
  let w := mkWorld catalogue [] [] [] in
  let free :=
    mkCheckoutBody (Some "c0") (Some "Course") (Some zero) (Some "u1")
      None None in
  let untitled :=
    mkCheckoutBody (Some "c1") (Some "") (Some (of_decimal 4999 2))
      (Some "u1") None None in
  fst (create_checkout_session free w) <> Return missing_parameters /\
  fst (create_checkout_session untitled w) = Return missing_parameters /\
  calls (snd (create_checkout_session untitled w)) = [].
Proof.
  intros w free untitled. split; [|split].
  - intros Hmiss.
    apply (checkout_validation free w) in Hmiss
      as [Hn|[Hn|[Hn|Hn]]]; discriminate.
  - apply (checkout_validation untitled w). right. left. reflexivity.
  - apply (checkout_validation untitled w).
Defined.

Lemma checkout_redirect_urls_witness :
  let params :=
    checkout_params "c1" "Course" (of_decimal 4999 2) "u1"
      (Some "https://school.example/thanks") (Some "") in
  success_url params = "https://school.example/thanks" /\
  cancel_url params = "http://localhost:5173/courses/c1".
Proof.
  intros params.
  destruct (checkout_redirect_urls "c1" "Course" "u1" (of_decimal 4999 2)
              (Some "https://school.example/thanks") (Some ""))
    as (Hs & _ & _ & Hc & Hf).
  split.
  - apply Hs; [reflexivity|discriminate].
  - fold params in Hc. rewrite Hc, Hf; reflexivity.
Defined.

Lemma operations_keep_payment_invariants_witness :
  let ops :=
    [StripeWebhook (mkWebhookRequest "{}" (Some "t=1,v1=valid"));
     VerifyPayment "cs_test_1";
     Reconcile "u1" "c1" (of_decimal 1999 2) "cs_2";
     CreateFreeEnrollment (mkFreeBody (Some "u2") (Some "c0"))] in
  let d := store (perform_all ops (mkWorld catalogue [] [] [])) in
  length (payments d) = 2 /\
  payments_reference_enrollments d /\ unique_payments d.
Proof.
  intros ops d. split; [reflexivity|].
  apply (operations_keep_payment_invariants ops (mkWorld catalogue [] [] [])).
  - constructor.
  - intros eid ref. simpl. lia.
Defined.

Lemma operations_write_completed_positive_payments_witness :
  let ops :=
    [StripeWebhook (mkWebhookRequest "{}" (Some "t=1,v1=zero"));
     StripeWebhook (mkWebhookRequest "{}" (Some "t=1,v1=valid"));
     CreateFreeEnrollment (mkFreeBody (Some "u2") (Some "c0"))] in
  let d := store (perform_all ops (mkWorld catalogue [] [] [])) in
  length (enrollments d) = 2 /\ length (payments d) = 1 /\
  Forall payment_as_written (payments d).
Proof.
  intros ops d. split; [reflexivity|]. split; [reflexivity|].
  apply (operations_write_completed_positive_payments ops
           (mkWorld catalogue [] [] [])).
  constructor.
Defined.

Lemma price_in_cents_round_trip_witness :
  let params :=
    checkout_params "c1" "Course" (of_decimal 4999 2) "u1" None None in
  (4999 <= 20000)%N /\
  unit_amount <$> line_items params = [of_Z 4999] /\
  webhook_amount (paid_session "cs_test_1" "c1" "u1" 4999) = of_decimal 4999 2.
Proof.
  intros params. split; [lia|].
  destruct (price_in_cents_round_trip 4999 "c1" "Course" "u1" None None
              (paid_session "cs_test_1" "c1" "u1" 4999))
    as (Hcents & Hback); [lia|].
  split; [exact Hcents|]. apply Hback. reflexivity.
Defined.

End FurtherScenarios.
